(** * Weekly-Recipes: the meal planning service ([src/ml_service.py])

    A shallow embedding of class [MealPlanningML] and the properties of
    its dietary filter, meal scorer, plan generator, nutrition balancer
    and nutrition analyzer.

    Modelling conventions.
    - Python numbers (ints and floats coming from JSON) are exact
      rationals [Q]; comparisons are the rational order, equalities of
      numbers are stated with [==].  Rounding of IEEE doubles is not
      modelled.
    - A division of Python numbers by zero raises [ZeroDivisionError],
      an exception of the error monad [result].  A division by a numpy
      [float64] zero (the result of [np.mean] on prep times that sum to
      zero) raises nothing: it gives inf, or nan for 0/0, with a
      RuntimeWarning.  The value that the scorer divides by therefore
      carries its kind ([number]), and the quotient is a [quotient].
      The other numbers keep no kind: nothing else in the code depends
      on it.
    - A meal is a JSON object; a key that may be missing is an [option]
      field and [d.get(k, default)] is [get_or].
    - Dictionaries keyed by strings are [gmap string _]; dictionary
      literals that the code iterates over are association lists in the
      order of the literal.
    - [str.lower] is modelled on ASCII letters.
    - The pseudorandom source is a parameter [rnd : nat -> Q]: [rnd k] is
      the value of the [k]-th call of [random.random()]. *)

From Stdlib Require Import ZArith QArith Qabs Lqa Lia String Ascii List Permutation Bool.
From Stdlib Require Import Sorted.
From stdpp Require Import gmap strings list fin_maps.
Import ListNotations.

Local Open Scope Q_scope.
Local Open Scope string_scope.
Local Open Scope list_scope.

(** ** Exceptions *)

Inductive exn : Type :=
| ZeroDivisionError
| ValueError
| IndexError
| TypeError.

Inductive result (A : Type) : Type :=
| Ok (a : A)
| Raise (e : exn).

Arguments Ok {A} a.
Arguments Raise {A} e.

Definition bind {A B : Type} (c : result A) (k : A -> result B) : result B :=
  match c with
  | Ok a => k a
  | Raise e => Raise e
  end.

Notation "'let*' x ':=' c 'in' k" := (bind c (fun x => k))
  (at level 10, x name, c at level 100, k at level 200).

Fixpoint traverse {A B : Type} (f : A -> result B) (l : list A) : result (list B) :=
  match l with
  | [] => Ok []
  | x :: l' => let* y := f x in let* ys := traverse f l' in Ok (y :: ys)
  end.

(** ** Numbers *)

Definition Qltb (a b : Q) : bool := negb (Qle_bool b a).

(** [max(a, b)] and [min(a, b)] of Python: the first argument wins ties. *)
Definition py_max (a b : Q) : Q := if Qltb a b then b else a.
Definition py_min (a b : Q) : Q := if Qltb b a then b else a.

(** [a / b] *)
Definition py_div (a b : Q) : result Q :=
  if Qeq_bool b 0 then Raise ZeroDivisionError else Ok (a / b).

(** A number together with what decides the outcome of a division by
    it: a Python [int] or [float], or a numpy [float64]. *)
Inductive number : Type :=
| PyNum (q : Q)
| NpFloat (q : Q).

Definition value (n : number) : Q :=
  match n with
  | PyNum q => q
  | NpFloat q => q
  end.

(** A quotient that may come from a division by a numpy zero *)
Inductive quotient : Type :=
| Finite (q : Q)
| Infinite
| NotANumber.

(** [a / b] for [a >= 0] (an absolute value): Python numbers raise on a
    zero divisor; with a numpy zero the quotient is [inf], or [nan] when
    [a] is zero as well, and nothing is raised.  The zero of the model
    is the positive zero of the doubles. *)
Definition num_div (a : Q) (b : number) : result quotient :=
  match b with
  | PyNum d => let* q := py_div a d in Ok (Finite q)
  | NpFloat d =>
      if Qeq_bool d 0
      then Ok (if Qeq_bool a 0 then NotANumber else Infinite)
      else Ok (Finite (a / d))
  end.

Definition of_nat (n : nat) : Q := inject_Z (Z.of_nat n).

Definition sum (l : list Q) : Q := fold_left Qplus l 0.

(** [np.mean(l)]; every call site guards [l] against being empty. *)
Definition mean (l : list Q) : Q := sum l / of_nat (List.length l).

(** ** Strings *)

Definition ascii_lower (c : ascii) : ascii :=
  let n := nat_of_ascii c in
  if ((65 <=? n)%nat && (n <=? 90)%nat)%bool then ascii_of_nat (n + 32) else c.

Fixpoint lower (s : string) : string :=
  match s with
  | EmptyString => EmptyString
  | String c s' => String (ascii_lower c) (lower s')
  end.

(** [sep.join(l)] *)
Definition join (sep : string) (l : list string) : string := String.concat sep l.

(** [sub in s] on strings *)
Fixpoint contains (sub s : string) : bool :=
  if String.prefix sub s then true
  else match s with
       | EmptyString => false
       | String _ s' => contains sub s'
       end.

(** [x in l] on a list of strings *)
Definition mem (x : string) (l : list string) : bool := existsb (String.eqb x) l.

(** [any(p(x) for x in l)] *)
Definition any {A : Type} (p : A -> bool) (l : list A) : bool := existsb p l.

(** ** Data model *)

(** [d.get(k, default)] *)
Definition get_or {A : Type} (o : option A) (default : A) : A :=
  match o with
  | Some a => a
  | None => default
  end.

Record Meal : Type := mkMeal {
  name : option string;
  cuisine : option string;
  ingredients : option (list string);
  tags : option (list string);
  prepTime : option Q;
  difficulty : option string;
  nutrition : option (gmap string Q);
  rating : option Q
}.

Record Prefs : Type := mkPrefs {
  preferred_cuisines : option (gmap string Q);
  preferred_ingredients : option (gmap string Q);
  avg_prep_time : option number;
  preferred_difficulty : option Q;
  variety_score : option Q
}.

(** ** Dietary filter *)

Section DietaryFilter.

Variable meal : Meal.

Definition meal_tags : list string := map lower (get_or (tags meal) []).
Definition meal_ingredients : list string := map lower (get_or (ingredients meal) []).

Definition nutrient_or (k : string) (default : Q) : Q :=
  get_or (get_or (nutrition meal) ∅ !! k) default.

(** The dictionary [restriction_checks]: the predicate stored under a
    key, already applied; [None] when the key is absent. *)
Definition restriction_checks (key : string) : option bool :=
  if String.eqb key "vegetarian" then
    Some (mem "vegetarian" meal_tags
          || negb (any (fun meat => contains meat (join " " meal_ingredients))
                       ["chicken"; "beef"; "pork"; "fish"; "turkey"; "lamb"]))
  else if String.eqb key "vegan" then
    Some (mem "vegan" meal_tags
          || (mem "vegetarian" meal_tags
              && negb (any (fun dairy => contains dairy (join " " meal_ingredients))
                           ["milk"; "cheese"; "butter"; "cream"; "yogurt"; "egg"])))
  else if String.eqb key "gluten-free" then
    Some (mem "gluten-free" meal_tags
          || negb (any (fun gluten => contains gluten (join " " meal_ingredients))
                       ["wheat"; "flour"; "bread"; "pasta"; "barley"; "rye"]))
  else if String.eqb key "dairy-free" then
    Some (mem "dairy-free" meal_tags
          || negb (any (fun dairy => contains dairy (join " " meal_ingredients))
                       ["milk"; "cheese"; "butter"; "cream"; "yogurt"]))
  else if String.eqb key "low-carb" then
    Some (Qltb (nutrient_or "carbs" 50) 30)
  else if String.eqb key "keto" then
    Some (Qltb (nutrient_or "carbs" 50) 20 && Qltb 15 (nutrient_or "healthy_fats" 0))
  else None.

Fixpoint _meets_dietary_restrictions_loop (restrictions : list string) : bool :=
  match restrictions with
  | [] => true
  | restriction :: rest =>
      let restriction_lower := lower restriction in
      match restriction_checks restriction_lower with
      | Some false => false
      | _ => _meets_dietary_restrictions_loop rest
      end
  end.

End DietaryFilter.

Definition _meets_dietary_restrictions (meal : Meal) (restrictions : list string) : bool :=
  _meets_dietary_restrictions_loop meal restrictions.

(** The six keys of [restriction_checks]. *)
Definition supported_restrictions : list string :=
  ["vegetarian"; "vegan"; "gluten-free"; "dairy-free"; "low-carb"; "keto"].

(** ** Preference learner *)

(** [d.get(k)] on a dictionary literal *)
Fixpoint dict_get {A : Type} (d : list (string * A)) (k : string) : option A :=
  match d with
  | [] => None
  | (k', v) :: d' => if String.eqb k k' then Some v else dict_get d' k
  end.

Definition difficulty_mapping : list (string * Q) :=
  [("easy", 1); ("medium", 2); ("hard", 3)].

(** [c[k] += v] on a [Counter] (a missing key counts as 0) *)
Definition counter_add (c : gmap string Q) (k : string) (v : Q) : gmap string Q :=
  <[k := get_or (c !! k) 0 + v]> c.

Record LearnState : Type := mkLearn {
  cuisine_scores : gmap string Q;
  ingredient_scores : gmap string Q;
  prep_time_preferences : list Q;
  difficulty_preferences : list Q
}.

(** One iteration of [for meal in meal_history] *)
Definition learn_step (st : LearnState) (meal : Meal) : LearnState :=
  let cuisine_ := get_or (cuisine meal) "unknown" in
  let rating_ := get_or (rating meal) 3 in
  let ingredients_ := get_or (ingredients meal) [] in
  let prep_time := get_or (prepTime meal) 30 in
  let difficulty_ := get_or (difficulty meal) "medium" in
  {| cuisine_scores := counter_add (cuisine_scores st) cuisine_ rating_;
     ingredient_scores :=
       fold_left (fun acc ingredient => counter_add acc (lower ingredient) rating_)
                 ingredients_ (ingredient_scores st);
     prep_time_preferences := prep_time_preferences st ++ [prep_time];
     difficulty_preferences :=
       difficulty_preferences st ++ [get_or (dict_get difficulty_mapping difficulty_) 2] |}.

Definition _default_preferences : Prefs :=
  {| preferred_cuisines :=
       Some (list_to_map [("italian", 3); ("mexican", 3); ("american", 3)]);
     preferred_ingredients := Some ∅;
     avg_prep_time := Some (PyNum 30);
     preferred_difficulty := Some 2;
     variety_score := Some 0.8 |}.

Definition names_of (meals : list Meal) : list string :=
  map (fun meal => get_or (name meal) "") meals.

Definition analyze_user_preferences (meal_history : list Meal) : result Prefs :=
  match meal_history with
  | [] => Ok _default_preferences
  | _ =>
      let st := fold_left learn_step meal_history (mkLearn ∅ ∅ [] []) in
      let total_meals := List.length meal_history in
      let* variety :=
        if (0 <? total_meals)%nat
        then py_div (of_nat (size (list_to_set (names_of meal_history) : gset string)))
                    (of_nat total_meals)
        else Ok 1 in
      Ok {| preferred_cuisines := Some (cuisine_scores st);
            preferred_ingredients := Some (ingredient_scores st);
            avg_prep_time :=
              Some (match prep_time_preferences st with
                    | [] => PyNum 30
                    | _ => NpFloat (mean (prep_time_preferences st))
                    end);
            preferred_difficulty :=
              Some (match difficulty_preferences st with
                    | [] => 2
                    | _ => mean (difficulty_preferences st)
                    end);
            variety_score := Some variety |}
  end.

(** ** Meal scorer *)

(** [l.index(x)] *)
Fixpoint index (x : string) (l : list string) : result nat :=
  match l with
  | [] => Raise ValueError
  | y :: l' => if String.eqb y x then Ok 0%nat else let* i := index x l' in Ok (S i)
  end.

(** [0.5 * (1 - recent_meals.index(meal_name) / len(recent_meals))] *)
Definition variety_penalty (meal_name : string) (recent_meals : list string) : result Q :=
  let* i := index meal_name recent_meals in
  let* ratio := py_div (of_nat i) (of_nat (List.length recent_meals)) in
  Ok (0.5 * (1 - ratio)).

(** The amount that the scorer subtracts for a recent meal *)
Definition variety_deduction (meal_name : string) (recent_meals : list string) : result Q :=
  let* p := variety_penalty meal_name recent_meals in
  Ok (p * 0.15).

(** [abs(prep_time - preferred_time) / preferred_time] *)
Definition time_diff_of (meal : Meal) (user_prefs : Prefs) : result quotient :=
  let prep_time := get_or (prepTime meal) 30 in
  let preferred_time := get_or (avg_prep_time user_prefs) (PyNum 30) in
  num_div (Qabs (prep_time - value preferred_time)) preferred_time.

(** [max(0, 1 - time_diff)]: [1 - inf] is [-inf] and [1 - nan] is [nan];
    [max(0, x)] keeps its first argument unless [x > 0]. *)
Definition time_score_of (time_diff : quotient) : Q :=
  match time_diff with
  | Finite d => py_max 0 (1 - d)
  | Infinite => 0
  | NotANumber => 0
  end.

(** The score before the final clamp *)
Definition raw_meal_score (meal : Meal) (user_prefs : Prefs) (recent_meals : list string)
  : result Q :=
  let score := 0 in
  (* cuisine *)
  let cuisine_ := get_or (cuisine meal) "unknown" in
  let cuisine_scores_ := get_or (preferred_cuisines user_prefs) ∅ in
  let cuisine_score := get_or (cuisine_scores_ !! cuisine_) 2.5 / 5 in
  let score := score + cuisine_score * 0.3 in
  (* ingredients *)
  let ingredients_ := get_or (ingredients meal) [] in
  let ingredient_scores_ := get_or (preferred_ingredients user_prefs) ∅ in
  let ingredient_score :=
    match ingredients_ with
    | [] => 0
    | _ =>
        let ingredient_ratings :=
          map (fun ing => get_or (ingredient_scores_ !! lower ing) 2.5) ingredients_ in
        mean ingredient_ratings / 5
    end in
  let score := score + ingredient_score * 0.25 in
  (* prep time *)
  let* time_diff := time_diff_of meal user_prefs in
  let time_score := time_score_of time_diff in
  let score := score + time_score * 0.15 in
  (* difficulty *)
  let meal_difficulty :=
    get_or (dict_get difficulty_mapping (get_or (difficulty meal) "medium")) 2 in
  let preferred_difficulty_ := get_or (preferred_difficulty user_prefs) 2 in
  let difficulty_diff := Qabs (meal_difficulty - preferred_difficulty_) / 2 in
  let difficulty_score := py_max 0 (1 - difficulty_diff) in
  let score := score + difficulty_score * 0.15 in
  (* variety *)
  let meal_name := get_or (name meal) "" in
  if mem meal_name recent_meals
  then let* deduction := variety_deduction meal_name recent_meals in
       Ok (score - deduction)
  else Ok (score + 0.15).

Definition calculate_meal_score (meal : Meal) (user_prefs : Prefs) (recent_meals : list string)
  : result Q :=
  let* score := raw_meal_score meal user_prefs recent_meals in
  Ok (py_min 1 (py_max 0 score)).

(** ** Sorting

    [l.sort(key=key, reverse=True)]: the stable sort in descending order
    of the key; elements with equal keys keep their original order. *)

Section Sort.

Context {A : Type} (key : A -> Q).

Fixpoint insert_desc (x : A) (l : list A) : list A :=
  match l with
  | [] => [x]
  | y :: l' => if Qltb (key x) (key y) then y :: insert_desc x l' else x :: l
  end.

Definition sort_desc (l : list A) : list A := fold_right insert_desc [] l.

End Sort.

(** ** Nutrition balancer *)

Definition weekly_targets : list (string * Q) :=
  [("protein", 350); ("carbs", 1400); ("fiber", 175);
   ("healthy_fats", 280); ("vitamins", 100); ("minerals", 100)].

(** [for nutrient, value in nutrition.items(): totals[nutrient] += value] *)
Definition add_nutrition (totals : gmap string Q) (meal : Meal) : gmap string Q :=
  fold_left (fun acc item => counter_add acc (fst item) (snd item))
            (map_to_list (get_or (nutrition meal) ∅)) totals.

Definition sum_nutrition (meals : list Meal) : gmap string Q :=
  fold_left add_nutrition meals ∅.

Definition nutrition_gaps_of (nutrition_totals : gmap string Q) : list (string * Q) :=
  map (fun item =>
         let current := get_or (nutrition_totals !! fst item) 0 in
         (fst item, py_max 0 (snd item - current)))
      weekly_targets.

Fixpoint nutrition_priority_loop (nutrition_ : gmap string Q)
         (nutrition_gaps : list (string * Q)) (score : Q) : result Q :=
  match nutrition_gaps with
  | [] => Ok score
  | (nutrient, gap) :: rest =>
      if Qltb 0 gap then
        let nutrient_value := get_or (nutrition_ !! nutrient) 0 in
        let* share := py_div gap (get_or (dict_get weekly_targets nutrient) 1) in
        nutrition_priority_loop nutrition_ rest (score + nutrient_value * share)
      else nutrition_priority_loop nutrition_ rest score
  end.

Definition nutrition_priority_score (nutrition_gaps : list (string * Q)) (meal : Meal)
  : result Q :=
  nutrition_priority_loop (get_or (nutrition meal) ∅) nutrition_gaps 0.

(** [[(x, f(x)) for x in l]] *)
Definition with_scores {A : Type} (f : A -> result Q) (l : list A) : result (list (A * Q)) :=
  traverse (fun x => let* s := f x in Ok (x, s)) l.

Definition balance_nutrition_weekly (meals : list Meal) : result (list Meal) :=
  if (List.length meals <? 7)%nat then Ok meals
  else
    let nutrition_totals := sum_nutrition meals in
    let nutrition_gaps := nutrition_gaps_of nutrition_totals in
    let* meals_with_scores := with_scores (nutrition_priority_score nutrition_gaps) meals in
    Ok (map fst (sort_desc snd meals_with_scores)).

(** ** Weighted random choice *)

(** The loop [for i, weight in enumerate(weights)]: the index at which it
    returns, or [None] when it runs to the end. *)
Fixpoint walk (weights : list Q) (i : nat) (cumulative_weight random_value : Q) : option nat :=
  match weights with
  | [] => None
  | weight :: rest =>
      let cumulative_weight := cumulative_weight + weight in
      if Qle_bool random_value cumulative_weight then Some i
      else walk rest (S i) cumulative_weight random_value
  end.

(** [_weighted_random_choice] once [random_value] is drawn; the Python
    [None] is [Ok None]. *)
Definition weighted_pick {T : Type} (items : list T) (weights : list Q) (random_value : Q)
  : result (option T) :=
  match walk weights 0 0 random_value with
  | Some i =>
      match nth_error items i with
      | Some item => Ok (Some item)
      | None => Raise IndexError
      end
  | None => Ok (List.last (map Some items) None)
  end.

(** [random.uniform(a, b)] is [a + (b - a) * random()] *)
Definition uniform (r a b : Q) : Q := a + (b - a) * r.

Definition _weighted_random_choice {T : Type} (r : Q) (items : list T) (weights : list Q)
  : result (option T) :=
  let total_weight := sum weights in
  let random_value := uniform r 0 total_weight in
  weighted_pick items weights random_value.

(** ** Plan generator *)

Record GenState : Type := mkGen {
  selected_meals : list Meal;
  used_meals : gset string;
  draws : nat
}.

Definition name_of (meal : Meal) : string := get_or (name meal) "".

(** One iteration of [for day in range(days)] *)
Definition day_step (rnd : nat -> Q) (meal_scores : list (Meal * Q)) (st : GenState)
  : result GenState :=
  let unused :=
    List.filter (fun c => negb (bool_decide (name_of (fst c) ∈ used_meals st))) meal_scores in
  let available_candidates := match unused with [] => meal_scores | _ => unused end in
  let used := match unused with [] => ∅ | _ => used_meals st end in
  match available_candidates with
  | [] => Ok (mkGen (selected_meals st) used (draws st))
  | _ =>
      let weights := map (fun c => snd c + 0.1) available_candidates in
      let* selected_meal :=
        _weighted_random_choice (rnd (draws st)) available_candidates weights in
      match selected_meal with
      | None => Raise TypeError
      | Some c =>
          Ok (mkGen (selected_meals st ++ [fst c])
                    ({[name_of (fst c)]} ∪ used)
                    (S (draws st)))
      end
  end.

Fixpoint days_loop (rnd : nat -> Q) (meal_scores : list (Meal * Q)) (days : nat)
         (st : GenState) : result GenState :=
  match days with
  | O => Ok st
  | S days' =>
      let* st' := day_step rnd meal_scores st in
      days_loop rnd meal_scores days' st'
  end.

(** [l[-n:]] *)
Definition last_n {A : Type} (n : nat) (l : list A) : list A :=
  skipn (List.length l - n) l.

Definition filter_meals (available_meals : list Meal) (dietary_restrictions : list string)
  : list Meal :=
  List.filter (fun meal => _meets_dietary_restrictions meal dietary_restrictions)
              available_meals.

Definition generate_smart_meal_plan (rnd : nat -> Q)
           (available_meals meal_history : list Meal) (days : Z)
           (dietary_restrictions : option (list string)) : result (list Meal) :=
  let dietary_restrictions := get_or dietary_restrictions [] in
  let* user_prefs := analyze_user_preferences meal_history in
  let filtered_meals := filter_meals available_meals dietary_restrictions in
  match filtered_meals with
  | [] => Ok []
  | _ =>
      let recent_meals := names_of (last_n 14 meal_history) in
      let* meal_scores :=
        with_scores (fun meal => calculate_meal_score meal user_prefs recent_meals)
                    filtered_meals in
      let meal_scores := sort_desc snd meal_scores in
      let* st := days_loop rnd meal_scores (Z.to_nat days) (mkGen [] ∅ 0) in
      balance_nutrition_weekly (selected_meals st)
  end.

(** ** Nutrition analyzer *)

Definition weekly_recommendations : list (string * Q) :=
  [("protein", 350); ("carbs", 1400); ("fiber", 175);
   ("healthy_fats", 280); ("vitamins", 100); ("minerals", 100)].

Record Analysis : Type := mkAnalysis {
  current_totals : gmap string Q;
  recommendations : list (string * Q);
  gaps : gmap string Q;
  excesses : gmap string Q;
  balance_score : Q
}.

(** The balance score of one nutrient:
    [ratio = current / recommended if recommended > 0 else 0] and
    [1 - abs(1 - ratio) if ratio <= 2 else 0]. *)
Definition nutrient_balance (current recommended : Q) : result Q :=
  let* ratio := if Qltb 0 recommended then py_div current recommended else Ok 0 in
  Ok (if Qle_bool ratio 2 then 1 - Qabs (1 - ratio) else 0).

Record GapState : Type := mkGap {
  st_gaps : gmap string Q;
  st_excesses : gmap string Q;
  balance_scores : list Q
}.

(** One iteration of [for nutrient, recommended in weekly_recommendations.items()] *)
Definition gap_step (total_nutrition : gmap string Q) (st : GapState)
           (item : string * Q) : result GapState :=
  let nutrient := fst item in
  let recommended := snd item in
  let current := get_or (total_nutrition !! nutrient) 0 in
  let gaps_ :=
    if Qltb current (recommended * 0.8)
    then <[nutrient := recommended - current]> (st_gaps st)
    else st_gaps st in
  let excesses_ :=
    if Qltb current (recommended * 0.8) then st_excesses st
    else if Qltb (recommended * 1.2) current
         then <[nutrient := current - recommended]> (st_excesses st)
         else st_excesses st in
  let* balance := nutrient_balance current recommended in
  Ok (mkGap gaps_ excesses_ (balance_scores st ++ [balance])).

Fixpoint gap_loop (total_nutrition : gmap string Q) (items : list (string * Q))
         (st : GapState) : result GapState :=
  match items with
  | [] => Ok st
  | item :: rest =>
      let* st' := gap_step total_nutrition st item in
      gap_loop total_nutrition rest st'
  end.

Definition analyze_nutrition_gaps (meal_plan : list Meal) : result Analysis :=
  let total_nutrition := sum_nutrition meal_plan in
  let* st := gap_loop total_nutrition weekly_recommendations (mkGap ∅ ∅ []) in
  Ok {| current_totals := total_nutrition;
        recommendations := weekly_recommendations;
        gaps := st_gaps st;
        excesses := st_excesses st;
        balance_score :=
          match balance_scores st with
          | [] => 0
          | _ => mean (balance_scores st)
          end |}.

(** ** Notions used in the statements *)

Definition nutrition_of (meal : Meal) : gmap string Q := get_or (nutrition meal) ∅.

(** The amount of a nutrient summed over a plan *)
Definition plan_total (nutrient : string) (meal_plan : list Meal) : Q :=
  sum (map (fun meal => get_or (nutrition_of meal !! nutrient) 0) meal_plan).

Definition add_items (items : list (string * Q)) (totals : gmap string Q) : gmap string Q :=
  fold_left (fun acc item => counter_add acc (fst item) (snd item)) items totals.

(** What one pass of the loop leaves under a key *)
Definition gap_entry (current recommended : Q) (before : option Q) : option Q :=
  if Qltb current (recommended * 0.8) then Some (recommended - current) else before.

Definition excess_entry (current recommended : Q) (before : option Q) : option Q :=
  if Qltb current (recommended * 0.8) then before
  else if Qltb (recommended * 1.2) current then Some (current - recommended)
       else before.

(** The cumulative weight of the first [k] candidates *)
Definition cumulative (weights : list Q) (k : nat) : Q := sum (firstn k weights).

(** The prep times that the learner collects from a history *)
Definition history_prep_times (meal_history : list Meal) : list Q :=
  map (fun meal => get_or (prepTime meal) 30) meal_history.

(** A number is a Python zero when dividing by it raises. *)
Definition python_zero (n : number) : Prop :=
  match n with
  | PyNum d => d == 0
  | NpFloat _ => False
  end.

(** A history is scorable when the profile learned from it has a
    non-zero preferred prep time. *)
Definition scorable (meal_history : list Meal) : Prop :=
  meal_history = [] \/ ~ sum (history_prep_times meal_history) == 0.

(** The mapped difficulties that the learner collects from a history *)
Definition history_difficulties (meal_history : list Meal) : list Q :=
  map (fun meal =>
         get_or (dict_get difficulty_mapping (get_or (difficulty meal) "medium")) 2)
      meal_history.

(** The (cuisine, rating) pairs that the learner adds up *)
Definition cuisine_items (meal_history : list Meal) : list (string * Q) :=
  map (fun meal => (get_or (cuisine meal) "unknown", get_or (rating meal) 3)) meal_history.

(** The (lowercased ingredient, rating) pairs that the learner adds up *)
Definition ingredient_items (meal_history : list Meal) : list (string * Q) :=
  flat_map (fun meal =>
              map (fun ing => (lower ing, get_or (rating meal) 3))
                  (get_or (ingredients meal) []))
           meal_history.

(** The sum of the values that a list of pairs holds under a key *)
Definition items_total (k : string) (items : list (string * Q)) : Q :=
  sum (map snd (List.filter (fun item => String.eqb (fst item) k) items)).

(** The priority score of a meal as a number (the score never raises) *)
Definition priority_of (nutrition_gaps : list (string * Q)) (meal : Meal) : Q :=
  match nutrition_priority_score nutrition_gaps meal with
  | Ok s => s
  | Raise _ => 0
  end.

(** The number of distinct meal names (missing names count as "") *)
Definition distinct_names (meals : list Meal) : nat :=
  size (list_to_set (names_of meals) : gset string).

(** The used set holds exactly the names selected so far, none twice. *)
Definition fresh_state (st : GenState) : Prop :=
  NoDup (names_of (selected_meals st))
  /\ used_meals st = list_to_set (names_of (selected_meals st)).

(** ** Sample data *)

Definition tofu : Meal :=
  mkMeal (Some "Tofu Stir Fry") None (Some ["tofu"; "broccoli"])
         (Some ["vegan"; "vegetarian"]) None None None None.

Definition chicken_soup : Meal :=
  mkMeal (Some "Chicken Soup") None (Some ["chicken"; "carrot"]) None None None None None.

Definition bare_meal : Meal := mkMeal None None None None None None None None.

Definition vegan_chicken : Meal :=
  mkMeal (Some "Vegan Label Chicken") None (Some ["chicken"]) (Some ["vegan"])
         None None None None.

Definition steak : Meal :=
  mkMeal (Some "Steak") (Some "american") (Some ["Beef"; "butter"]) None (Some 25)
         (Some "medium") (Some (list_to_map [("protein", 60); ("healthy_fats", 30)])) None.

Definition oatmeal : Meal :=
  mkMeal (Some "Oatmeal") None (Some ["oats"; "milk"]) (Some ["Vegetarian"]) (Some 10)
         (Some "easy") (Some (list_to_map [("carbs", 55); ("fiber", 8)])) None.

Definition week : list Meal :=
  [oatmeal; steak; tofu; oatmeal; chicken_soup; steak; bare_meal].

Definition no_protein_week : list Meal :=
  [oatmeal; tofu; oatmeal; chicken_soup; bare_meal; tofu; oatmeal].

Definition water : Meal :=
  mkMeal (Some "Water") None None None (Some 0) None None None.

Definition keto_plate : Meal :=
  mkMeal (Some "Salmon Plate") None (Some ["Salmon"; "avocado"]) None (Some 20) None
         (Some (list_to_map [("carbs", 12); ("healthy_fats", 30); ("protein", 35)])) None.

Definition lentil_soup : Meal :=
  mkMeal (Some "Lentil Soup") None (Some ["lentils"; "carrot"]) (Some ["Vegetarian"])
         (Some 40) None None None.

Definition eggplant_bake : Meal :=
  mkMeal (Some "Eggplant Bake") None (Some ["Grilled Eggplant"; "tomato"])
         (Some ["vegetarian"]) None None None None.

Definition feast : Meal :=
  mkMeal (Some "Feast") None None None None None
         (Some (list_to_map [("protein", 400); ("carbs", 1400); ("fiber", 180);
                             ("healthy_fats", 300); ("vitamins", 100); ("minerals", 120)]))
         None.

Definition on_target : Meal :=
  mkMeal (Some "Ration") None None None None None
         (Some (list_to_map [("protein", 350); ("carbs", 1400); ("fiber", 175);
                             ("healthy_fats", 280); ("vitamins", 100); ("minerals", 100);
                             ("sodium", 12)]))
         None.

(** * Properties *)

(** ** Numbers *)

Lemma Qltb_lt (a b : Q) : Qltb a b = true <-> a < b.
Proof.
  unfold Qltb. rewrite negb_true_iff, <- not_true_iff_false, Qle_bool_iff.
  split; [apply Qnot_le_lt | apply Qlt_not_le].
Qed.

Lemma Qltb_ge (a b : Q) : Qltb a b = false <-> b <= a.
Proof.
  unfold Qltb. rewrite negb_false_iff, Qle_bool_iff. tauto.
Qed.

Lemma py_max_lower (a b : Q) : a <= py_max a b.
Proof.
  unfold py_max. destruct (Qltb a b) eqn:E.
  - apply Qltb_lt in E. lra.
  - lra.
Qed.

Lemma py_max_upper (a b c : Q) : a <= c -> b <= c -> py_max a b <= c.
Proof. unfold py_max. destruct (Qltb a b); auto. Qed.

Lemma py_min_upper (a b : Q) : py_min a b <= a.
Proof.
  unfold py_min. destruct (Qltb b a) eqn:E.
  - apply Qltb_lt in E. lra.
  - lra.
Qed.

Lemma py_min_lower (a b c : Q) : c <= a -> c <= b -> c <= py_min a b.
Proof. unfold py_min. destruct (Qltb b a); auto. Qed.

Lemma clamp_unit (s : Q) : 0 <= py_min 1 (py_max 0 s) <= 1.
Proof.
  split.
  - apply py_min_lower; [lra | apply py_max_lower].
  - apply py_min_upper.
Qed.

Lemma of_nat_pos (n : nat) : (0 < n)%nat -> 0 < of_nat n.
Proof.
  intros H. unfold of_nat, Qlt. simpl. lia.
Qed.

Lemma of_nat_lt (n m : nat) : (n < m)%nat -> of_nat n < of_nat m.
Proof.
  intros H. unfold of_nat. rewrite <- Zlt_Qlt. lia.
Qed.

Lemma py_div_ok (a b : Q) : ~ b == 0 -> py_div a b = Ok (a / b).
Proof.
  intros H. unfold py_div. destruct (Qeq_bool b 0) eqn:E; [| reflexivity].
  apply Qeq_bool_iff in E. contradiction.
Qed.

Lemma py_div_zero (a b : Q) : b == 0 -> py_div a b = Raise ZeroDivisionError.
Proof.
  intros H. unfold py_div. apply Qeq_bool_iff in H. now rewrite H.
Qed.

(** ** Dietary filter *)

Lemma restriction_checks_unsupported (meal : Meal) (key : string) :
  ~ In key supported_restrictions -> restriction_checks meal key = None.
Proof.
  intros H. unfold restriction_checks.
  repeat match goal with
         | |- context [String.eqb key ?k] =>
             destruct (String.eqb_spec key k) as [-> | _];
             [exfalso; apply H; simpl; tauto |]
         end.
  reflexivity.
Qed.

(** C5: the dietary filter is conjunctive over a two-element restriction
    list, and a restriction whose (lowercased) name is none of the six
    supported ones is satisfied by every meal. *)
Theorem dietary_filter_conjunctive (meal : Meal) (r1 r2 : string) :
  _meets_dietary_restrictions meal [r1; r2]
  = (_meets_dietary_restrictions meal [r1] && _meets_dietary_restrictions meal [r2])%bool
  /\ (forall r : string,
         ~ In (lower r) supported_restrictions ->
         _meets_dietary_restrictions meal [r] = true).
Proof.
  split.
  - unfold _meets_dietary_restrictions. simpl.
    destruct (restriction_checks meal (lower r1)) as [[|]|];
      destruct (restriction_checks meal (lower r2)) as [[|]|]; reflexivity.
  - intros r Hr. unfold _meets_dietary_restrictions. simpl.
    now rewrite (restriction_checks_unsupported meal _ Hr).
Qed.

Lemma dietary_filter_conjunctive_witness :
  _meets_dietary_restrictions chicken_soup ["vegetarian"; "Keto"]
  = (_meets_dietary_restrictions chicken_soup ["vegetarian"]
     && _meets_dietary_restrictions chicken_soup ["Keto"])%bool
  /\ ~ In (lower "Paleo") supported_restrictions
  /\ _meets_dietary_restrictions chicken_soup ["Paleo"] = true.
Proof.
  assert (Hp : ~ In (lower "Paleo") supported_restrictions).
  { vm_compute. intros H. repeat (destruct H as [H | H]; [discriminate H |]). exact H. }
  destruct (dietary_filter_conjunctive chicken_soup "vegetarian" "Keto") as [H1 H2].
  split; [exact H1 | split; [exact Hp | exact (H2 "Paleo" Hp)]].
Defined.

(** The filter over any list is the conjunction over its elements. *)
Lemma dietary_filter_forallb (meal : Meal) (restrictions : list string) :
  _meets_dietary_restrictions meal restrictions
  = forallb (fun r => _meets_dietary_restrictions meal [r]) restrictions.
Proof.
  unfold _meets_dietary_restrictions.
  induction restrictions as [| r rs IH]; simpl; [reflexivity |].
  rewrite IH. destruct (restriction_checks meal (lower r)) as [[|]|]; reflexivity.
Qed.

(** C10: passing 'vegan' does not imply passing 'vegetarian': a meal
    tagged 'vegan' whose ingredients contain 'chicken' passes the former
    and fails the latter, because the 'vegan' tag alone is accepted. *)
Theorem vegan_does_not_imply_vegetarian :
  (exists meal : Meal,
      _meets_dietary_restrictions meal ["vegan"] = true
      /\ _meets_dietary_restrictions meal ["vegetarian"] = false)
  /\ (forall meal : Meal,
         mem "vegan" (meal_tags meal) = true ->
         _meets_dietary_restrictions meal ["vegan"] = true).
Proof.
  split.
  - exists vegan_chicken. split; vm_compute; reflexivity.
  - intros meal H. unfold _meets_dietary_restrictions. simpl.
    replace (lower "vegan") with "vegan" by reflexivity.
    unfold restriction_checks. simpl. rewrite H. reflexivity.
Qed.

Lemma vegan_does_not_imply_vegetarian_witness :
  mem "vegan" (meal_tags vegan_chicken) = true
  /\ _meets_dietary_restrictions vegan_chicken ["vegan"] = true
  /\ _meets_dietary_restrictions vegan_chicken ["vegetarian"] = false.
Proof.
  assert (H : mem "vegan" (meal_tags vegan_chicken) = true) by (vm_compute; reflexivity).
  split; [exact H |].
  split; [exact (proj2 vegan_does_not_imply_vegetarian vegan_chicken H) |].
  vm_compute; reflexivity.
Defined.

(** ** Meal scorer *)

Lemma index_lt (x : string) (l : list string) (i : nat) :
  index x l = Ok i -> (i < List.length l)%nat.
Proof.
  revert i. induction l as [| y l IH]; intros i H; simpl in *; [discriminate |].
  destruct (String.eqb y x).
  - injection H as <-. lia.
  - destruct (index x l) as [j |]; simpl in H; [| discriminate].
    injection H as <-. specialize (IH j eq_refl). lia.
Qed.

Lemma mem_index (x : string) (l : list string) :
  mem x l = true -> exists i, index x l = Ok i.
Proof.
  unfold mem. induction l as [| y l IH]; simpl; [discriminate |].
  rewrite (String.eqb_sym x y). destruct (String.eqb y x); simpl.
  - eauto.
  - intros H. destruct (IH H) as [i ->]. simpl. eauto.
Qed.

Lemma variety_deduction_eq (x : string) (l : list string) (i : nat) :
  index x l = Ok i ->
  variety_deduction x l = Ok (0.5 * (1 - of_nat i / of_nat (List.length l)) * 0.15).
Proof.
  intros H. unfold variety_deduction, variety_penalty. rewrite H. simpl.
  rewrite py_div_ok; [reflexivity |].
  apply index_lt in H. assert (0 < of_nat (List.length l)) by (apply of_nat_pos; lia). lra.
Qed.

Lemma ratio_lt (i j n : nat) :
  (i < j)%nat -> (0 < n)%nat -> of_nat i / of_nat n < of_nat j / of_nat n.
Proof.
  intros Hij Hn. unfold Qdiv. apply Qmult_lt_compat_r.
  - apply Qinv_lt_0_compat, of_nat_pos, Hn.
  - apply of_nat_lt, Hij.
Qed.

Lemma ratio_lt_1 (i n : nat) : (i < n)%nat -> of_nat i / of_nat n < 1.
Proof.
  intros H. apply Qlt_shift_div_r.
  - apply of_nat_pos. lia.
  - rewrite Qmult_1_l. apply of_nat_lt, H.
Qed.

Lemma ratio_zero (n : nat) : of_nat 0 / of_nat n == 0.
Proof. unfold Qdiv. change (of_nat 0) with 0. lra. Qed.

(** C3 (as the code has it): the deduction [0.15 * 0.5 * (1 - index/len)]
    is strictly decreasing in the index of the meal's name in
    [recent_meals]: it is the full 0.075 at index 0, and positive but
    smaller at every later index. *)
Theorem variety_deduction_decreasing
        (recent_meals : list string) (n1 n2 : string) (i1 i2 : nat) :
  index n1 recent_meals = Ok i1 ->
  index n2 recent_meals = Ok i2 ->
  (i1 < i2)%nat ->
  exists d1 d2 : Q,
    variety_deduction n1 recent_meals = Ok d1
    /\ variety_deduction n2 recent_meals = Ok d2
    /\ d1 == 0.15 * 0.5 * (1 - of_nat i1 / of_nat (List.length recent_meals))
    /\ d2 == 0.15 * 0.5 * (1 - of_nat i2 / of_nat (List.length recent_meals))
    /\ d2 < d1
    /\ 0 < d2
    /\ d1 <= 0.075
    /\ (i1 = 0%nat -> d1 == 0.075).
Proof.
  intros H1 H2 Hlt.
  pose proof (index_lt _ _ _ H2) as Hlen.
  exists (0.5 * (1 - of_nat i1 / of_nat (List.length recent_meals)) * 0.15),
         (0.5 * (1 - of_nat i2 / of_nat (List.length recent_meals)) * 0.15).
  pose proof (ratio_lt i1 i2 (List.length recent_meals) Hlt ltac:(lia)) as Hr.
  pose proof (ratio_lt_1 i2 (List.length recent_meals) Hlen) as Hr1.
  assert (Hr0 : 0 <= of_nat i1 / of_nat (List.length recent_meals)).
  { destruct i1 as [| i1].
    - rewrite ratio_zero. lra.
    - pose proof (ratio_lt 0 (S i1) (List.length recent_meals) ltac:(lia) ltac:(lia)) as H0.
      rewrite ratio_zero in H0. lra. }
  repeat split.
  - apply variety_deduction_eq, H1.
  - apply variety_deduction_eq, H2.
  - lra.
  - lra.
  - lra.
  - lra.
  - lra.
  - intros ->. rewrite ratio_zero. lra.
Qed.

Lemma variety_deduction_decreasing_witness :
  exists d1 d2 : Q,
    variety_deduction "soup" ["soup"; "stew"; "salad"] = Ok d1
    /\ variety_deduction "salad" ["soup"; "stew"; "salad"] = Ok d2
    /\ d1 == 0.15 * 0.5 * (1 - of_nat 0 / of_nat (List.length ["soup"; "stew"; "salad"]))
    /\ d2 == 0.15 * 0.5 * (1 - of_nat 2 / of_nat (List.length ["soup"; "stew"; "salad"]))
    /\ d2 < d1 /\ 0 < d2 /\ d1 <= 0.075 /\ (0%nat = 0%nat -> d1 == 0.075).
Proof.
  apply (variety_deduction_decreasing ["soup"; "stew"; "salad"] "soup" "salad" 0 2).
  - reflexivity.
  - reflexivity.
  - lia.
Defined.

(** C3 as stated fails: the deduction does not grow with the index.  In
    the window ["soup"; "stew"] the later name is charged less. *)
Lemma variety_deduction_not_increasing :
  ~ (forall (recent_meals : list string) (n1 n2 : string) (i1 i2 : nat) (d1 d2 : Q),
        index n1 recent_meals = Ok i1 ->
        index n2 recent_meals = Ok i2 ->
        variety_deduction n1 recent_meals = Ok d1 ->
        variety_deduction n2 recent_meals = Ok d2 ->
        (i1 < i2)%nat -> d1 <= d2).
Proof.
  intros H.
  specialize (H ["soup"; "stew"] "soup" "stew" 0%nat 1%nat _ _
                eq_refl eq_refl eq_refl eq_refl ltac:(lia)).
  vm_compute in H. apply H. reflexivity.
Qed.

(** The division of the prep-time term returns a quotient unless the
    preferred prep time is a Python zero. *)
Lemma num_div_total (a : Q) (b : number) :
  ~ python_zero b -> exists q : quotient, num_div a b = Ok q.
Proof.
  intros H. destruct b as [d | d]; simpl in *.
  - rewrite (py_div_ok _ _ H). simpl. eauto.
  - destruct (Qeq_bool d 0); eauto.
Qed.

Lemma num_div_python_zero (a : Q) (b : number) :
  python_zero b -> num_div a b = Raise ZeroDivisionError.
Proof.
  intros H. destruct b as [d | d]; simpl in *; [| contradiction].
  now rewrite (py_div_zero _ _ H).
Qed.

Lemma value_nonzero (b : number) : ~ value b == 0 -> ~ python_zero b.
Proof. intros H Hz. destruct b; simpl in *; [exact (H Hz) | exact Hz]. Qed.

Lemma raw_meal_score_ok (meal : Meal) (user_prefs : Prefs) (recent_meals : list string) :
  ~ python_zero (get_or (avg_prep_time user_prefs) (PyNum 30)) ->
  exists s : Q, raw_meal_score meal user_prefs recent_meals = Ok s.
Proof.
  intros H. unfold raw_meal_score, time_diff_of.
  destruct (num_div_total (Qabs (get_or (prepTime meal) 30
                                 - value (get_or (avg_prep_time user_prefs) (PyNum 30))))
                          _ H) as [q ->].
  cbn [bind].
  destruct (mem (get_or (name meal) "") recent_meals) eqn:E; [| eauto].
  destruct (mem_index _ _ E) as [i Hi].
  rewrite (variety_deduction_eq _ _ _ Hi). cbn [bind]. eauto.
Qed.

Lemma calculate_meal_score_ok
      (meal : Meal) (user_prefs : Prefs) (recent_meals : list string) :
  ~ python_zero (get_or (avg_prep_time user_prefs) (PyNum 30)) ->
  exists s : Q,
    calculate_meal_score meal user_prefs recent_meals = Ok s /\ 0 <= s <= 1.
Proof.
  intros H. destruct (raw_meal_score_ok meal user_prefs recent_meals H) as [s Hs].
  unfold calculate_meal_score. rewrite Hs. cbn [bind].
  eexists. split; [reflexivity | apply clamp_unit].
Qed.

(** C2: when the preferred prep time is not zero, the scorer returns a
    value and that value lies in [0, 1], whatever the magnitudes of the
    ratings, the prep times and the number of ingredients. *)
Theorem calculate_meal_score_unit_interval
        (meal : Meal) (user_prefs : Prefs) (recent_meals : list string) :
  ~ value (get_or (avg_prep_time user_prefs) (PyNum 30)) == 0 ->
  exists s : Q,
    calculate_meal_score meal user_prefs recent_meals = Ok s /\ 0 <= s <= 1.
Proof. intros H. apply calculate_meal_score_ok, value_nonzero, H. Qed.

Lemma calculate_meal_score_unit_interval_witness :
  ~ value (get_or (avg_prep_time _default_preferences) (PyNum 30)) == 0
  /\ exists s : Q,
      calculate_meal_score tofu _default_preferences ["Tofu Stir Fry"] = Ok s
      /\ 0 <= s <= 1.
Proof.
  assert (H : ~ value (get_or (avg_prep_time _default_preferences) (PyNum 30)) == 0)
    by (vm_compute; discriminate).
  split; [exact H |].
  exact (calculate_meal_score_unit_interval tofu _default_preferences ["Tofu Stir Fry"] H).
Defined.

(** The scorer fails when the preferred prep time is a Python zero. *)
Lemma calculate_meal_score_zero_time
      (meal : Meal) (user_prefs : Prefs) (recent_meals : list string) :
  python_zero (get_or (avg_prep_time user_prefs) (PyNum 30)) ->
  calculate_meal_score meal user_prefs recent_meals = Raise ZeroDivisionError.
Proof.
  intros H. unfold calculate_meal_score, raw_meal_score, time_diff_of.
  rewrite (num_div_python_zero _ _ H). reflexivity.
Qed.

(** ** Weighted random choice *)

Lemma walk_some (weights : list Q) :
  forall (i0 : nat) (c u : Q) (i : nat),
    walk weights i0 c u = Some i ->
    exists k : nat,
      i = (i0 + k)%nat
      /\ (k < List.length weights)%nat
      /\ u <= fold_left Qplus (firstn (S k) weights) c
      /\ forall k' : nat, (k' < k)%nat -> fold_left Qplus (firstn (S k') weights) c < u.
Proof.
  induction weights as [| w ws IH]; intros i0 c u i H; simpl in H; [discriminate |].
  destruct (Qle_bool u (c + w)) eqn:E.
  - injection H as <-. exists 0%nat. repeat split.
    + lia.
    + simpl. lia.
    + simpl. now apply Qle_bool_iff.
    + intros k' Hk. lia.
  - destruct (IH _ _ _ _ H) as (k & -> & Hk & Hle & Hbefore).
    exists (S k). repeat split.
    + lia.
    + simpl. lia.
    + exact Hle.
    + intros [| k'] Hk'.
      * simpl. apply Qnot_le_lt. intros Hc. apply Qle_bool_iff in Hc. congruence.
      * apply (Hbefore k'). lia.
Qed.

Lemma walk_none (weights : list Q) :
  forall (i0 : nat) (c u : Q),
    walk weights i0 c u = None ->
    forall k : nat, (k < List.length weights)%nat ->
                    fold_left Qplus (firstn (S k) weights) c < u.
Proof.
  induction weights as [| w ws IH]; intros i0 c u H k Hk; simpl in *; [lia |].
  destruct (Qle_bool u (c + w)) eqn:E; [discriminate |].
  destruct k as [| k].
  - simpl. apply Qnot_le_lt. intros Hc. apply Qle_bool_iff in Hc. congruence.
  - apply (IH _ _ _ H). lia.
Qed.

Lemma sum_snoc (l : list Q) (x : Q) : sum (l ++ [x]) = sum l + x.
Proof. unfold sum. rewrite fold_left_app. reflexivity. Qed.

Lemma firstn_snoc {A : Type} (l : list A) (k : nat) (x : A) :
  nth_error l k = Some x -> firstn (S k) l = firstn k l ++ [x].
Proof.
  revert k. induction l as [| y l IH]; intros [| k] H; simpl in *; try discriminate.
  - now injection H as ->.
  - f_equal. apply IH, H.
Qed.

Lemma cumulative_step (weights : list Q) (k : nat) (w : Q) :
  nth_error weights k = Some w -> cumulative weights (S k) = cumulative weights k + w.
Proof.
  intros H. unfold cumulative. rewrite (firstn_snoc _ _ _ H). apply sum_snoc.
Qed.

Lemma cumulative_all (weights : list Q) : cumulative weights (List.length weights) = sum weights.
Proof. unfold cumulative. now rewrite firstn_all. Qed.

Lemma cumulative_succ_le (weights : list Q) (k : nat) :
  Forall (fun w => 0 < w) weights -> cumulative weights k <= cumulative weights (S k).
Proof.
  intros Hpos. destruct (nth_error weights k) as [w |] eqn:E.
  - rewrite (cumulative_step _ _ _ E).
    assert (0 < w) by (rewrite List.Forall_forall in Hpos; apply Hpos; eapply nth_error_In, E).
    lra.
  - apply nth_error_None in E. unfold cumulative.
    rewrite !firstn_all2 by lia. lra.
Qed.

Lemma cumulative_mono (weights : list Q) (k k' : nat) :
  Forall (fun w => 0 < w) weights -> (k <= k')%nat ->
  cumulative weights k <= cumulative weights k'.
Proof.
  intros Hpos Hle. induction Hle as [| k' _ IH]; [lra |].
  pose proof (cumulative_succ_le weights k' Hpos). lra.
Qed.

Lemma cumulative_le_sum (weights : list Q) (k : nat) :
  Forall (fun w => 0 < w) weights -> cumulative weights k <= sum weights.
Proof.
  intros Hpos. rewrite <- cumulative_all.
  destruct (Nat.le_gt_cases k (List.length weights)) as [H | H].
  - now apply cumulative_mono.
  - unfold cumulative. rewrite !firstn_all2 by lia. lra.
Qed.

(** For a non-empty list of items with one weight each the choice returns
    one of the items, whatever the draw. *)
Lemma weighted_pick_member {T : Type} (items : list T) (weights : list Q) (u : Q) :
  items <> [] -> List.length weights = List.length items ->
  exists item : T, weighted_pick items weights u = Ok (Some item) /\ In item items.
Proof.
  intros Hne Hlen. unfold weighted_pick.
  destruct (walk weights 0 0 u) as [i |] eqn:E.
  - destruct (walk_some _ _ _ _ _ E) as (k & -> & Hk & _).
    destruct (nth_error items (0 + k)) as [item |] eqn:En.
    + exists item. split; [reflexivity | eapply nth_error_In, En].
    + apply nth_error_None in En. lia.
  - destruct (exists_last Hne) as (front & item & ->).
    exists item. rewrite map_app. simpl. rewrite last_last.
    split; [reflexivity | apply in_or_app; simpl; auto].
Qed.

(** A draw strictly above the cumulative weight before item [j] and at
    most the cumulative weight after it returns item [j]. *)
Lemma weighted_pick_interval {T : Type} (items : list T) (weights : list Q)
      (j : nat) (item : T) (u : Q) :
  Forall (fun w => 0 < w) weights ->
  nth_error items j = Some item ->
  (j < List.length weights)%nat ->
  cumulative weights j < u <= cumulative weights (S j) ->
  weighted_pick items weights u = Ok (Some item).
Proof.
  intros Hpos Hj Hjlen [Hlo Hhi]. unfold weighted_pick.
  destruct (walk weights 0 0 u) as [i |] eqn:E.
  - destruct (walk_some _ _ _ _ _ E) as (k & -> & Hk & Hle & Hbefore). simpl.
    change (u <= cumulative weights (S k)) in Hle.
    assert (k = j) as ->.
    { destruct (Nat.lt_trichotomy k j) as [Hkj | [Heq | Hkj]]; [| exact Heq |].
      - pose proof (cumulative_mono weights (S k) j Hpos ltac:(lia)). lra.
      - specialize (Hbefore j Hkj).
        change (cumulative weights (S j) < u) in Hbefore. lra. }
    now rewrite Hj.
  - pose proof (walk_none _ _ _ _ E j Hjlen) as Hn.
    change (cumulative weights (S j) < u) in Hn. lra.
Qed.

(** C7: with weights [score + 0.1], all positive, a draw [u] in
    [0, total] returns the first candidate whose cumulative weight is at
    least [u]; every candidate [j] is returned for all draws in the
    interval between the cumulative weights before and after it, which
    lies in [0, total] and has positive length, so some draw selects it;
    and [random.uniform] maps [0, 1] into [0, total]. *)
Theorem weighted_choice_first_cumulative {T : Type} (candidates : list (T * Q)) :
  let weights := map (fun c => snd c + 0.1) candidates in
  candidates <> [] ->
  Forall (fun w => 0 < w) weights ->
  (forall u : Q,
      0 <= u <= sum weights ->
      exists (i : nat) (c : T * Q),
        weighted_pick candidates weights u = Ok (Some c)
        /\ nth_error candidates i = Some c
        /\ u <= cumulative weights (S i)
        /\ forall k : nat, (k < i)%nat -> cumulative weights (S k) < u)
  /\ (forall (j : nat) (c : T * Q),
         nth_error candidates j = Some c ->
         0 <= cumulative weights j
         /\ cumulative weights j < cumulative weights (S j)
         /\ cumulative weights (S j) <= sum weights
         /\ (forall u : Q,
                cumulative weights j < u <= cumulative weights (S j) ->
                weighted_pick candidates weights u = Ok (Some c))
         /\ exists u : Q,
             0 <= u <= sum weights /\ weighted_pick candidates weights u = Ok (Some c))
  /\ (forall r : Q,
         0 <= r <= 1 ->
         0 <= uniform r 0 (sum weights) <= sum weights
         /\ _weighted_random_choice r candidates weights
            = weighted_pick candidates weights (uniform r 0 (sum weights))).
Proof.
  intros weights Hne Hpos.
  assert (Hlen : List.length weights = List.length candidates)
    by (unfold weights; apply length_map).
  split; [| split].
  - intros u [Hu0 Hu1]. unfold weighted_pick.
    destruct (walk weights 0 0 u) as [i |] eqn:E.
    + destruct (walk_some _ _ _ _ _ E) as (k & -> & Hk & Hle & Hbefore).
      simpl. destruct (nth_error candidates k) as [c |] eqn:En.
      * exists k, c. repeat split; assumption.
      * apply nth_error_None in En. lia.
    + exfalso. destruct candidates as [| c0 cs]; [congruence |].
      pose proof (walk_none _ _ _ _ E (List.length cs)) as Hn.
      rewrite Hlen in Hn. specialize (Hn ltac:(simpl; lia)).
      change (cumulative weights (S (List.length cs)) < u) in Hn.
      change (S (List.length cs)) with (List.length (c0 :: cs)) in Hn.
      rewrite <- Hlen, cumulative_all in Hn. lra.
  - intros j c Hj.
    assert (Hw : nth_error weights j = Some (snd c + 0.1))
      by (unfold weights; rewrite nth_error_map, Hj; reflexivity).
    assert (Hwpos : 0 < snd c + 0.1)
      by (rewrite List.Forall_forall in Hpos; apply Hpos; eapply nth_error_In, Hw).
    assert (Hjlen : (j < List.length weights)%nat)
      by (apply nth_error_Some; congruence).
    pose proof (cumulative_step _ _ _ Hw) as Hstep.
    pose proof (cumulative_le_sum weights (S j) Hpos) as Hsum.
    assert (H0 : 0 <= cumulative weights j).
    { change 0 with (cumulative weights 0) at 1. apply cumulative_mono; [assumption | lia]. }
    split; [exact H0 |].
    split; [rewrite Hstep; lra |].
    split; [exact Hsum |].
    split.
    + intros u Hu. now apply (weighted_pick_interval candidates weights j).
    + exists (cumulative weights (S j)). split.
      * rewrite Hstep in *. lra.
      * apply (weighted_pick_interval candidates weights j); try assumption.
        rewrite Hstep. lra.
  - intros r [Hr0 Hr1]. split; [| reflexivity].
    assert (Hs : 0 <= sum weights).
    { rewrite <- cumulative_all. change 0 with (cumulative weights 0) at 1.
      apply cumulative_mono; [assumption | lia]. }
    unfold uniform. split; nra.
Qed.

Lemma weighted_choice_first_cumulative_witness :
  [(tofu, 0); (chicken_soup, 0.5)] <> []
  /\ Forall (fun w => 0 < w) (map (fun c => snd c + 0.1) [(tofu, 0); (chicken_soup, 0.5)])
  /\ weighted_pick [(tofu, 0); (chicken_soup, 0.5)]
                   (map (fun c => snd c + 0.1) [(tofu, 0); (chicken_soup, 0.5)]) 0.05
     = Ok (Some (tofu, 0)).
Proof.
  assert (Hne : [(tofu, 0); (chicken_soup, 0.5)] <> []) by discriminate.
  assert (Hpos : Forall (fun w => 0 < w)
                        (map (fun c => snd c + 0.1) [(tofu, 0); (chicken_soup, 0.5)])).
  { simpl. repeat constructor. }
  split; [exact Hne | split; [exact Hpos |]].
  destruct (weighted_choice_first_cumulative _ Hne Hpos) as (_ & Hsel & _).
  destruct (Hsel 0%nat (tofu, 0) eq_refl) as (_ & _ & _ & Hdraw & _).
  apply Hdraw. vm_compute. split; [reflexivity | discriminate].
Defined.

(** ** Sorting *)

Section SortFacts.

Context {A : Type} (key : A -> Q).

Lemma insert_desc_perm (x : A) (l : list A) : Permutation (x :: l) (insert_desc key x l).
Proof.
  induction l as [| y l IH]; simpl; [apply Permutation_refl |].
  destruct (Qltb (key x) (key y)).
  - eapply perm_trans; [apply perm_swap | apply perm_skip, IH].
  - apply Permutation_refl.
Qed.

Lemma sort_desc_perm (l : list A) : Permutation l (sort_desc key l).
Proof.
  induction l as [| x l IH]; simpl; [apply perm_nil |].
  eapply perm_trans; [apply perm_skip, IH | apply insert_desc_perm].
Qed.

(** The result is in descending order of the key. *)
Lemma insert_desc_sorted (x : A) (l : list A) :
  Sorted (fun a b => key b <= key a) l ->
  Sorted (fun a b => key b <= key a) (insert_desc key x l).
Proof.
  induction l as [| y l IH]; intros Hs; simpl.
  - repeat constructor.
  - destruct (Qltb (key x) (key y)) eqn:E.
    + apply Sorted_inv in Hs as [Hs Hhd]. constructor; [apply IH, Hs |].
      apply Qltb_lt in E.
      destruct l as [| z l]; simpl.
      * constructor. lra.
      * destruct (Qltb (key x) (key z)); constructor.
        -- now apply HdRel_inv in Hhd.
        -- lra.
    + apply Qltb_ge in E. constructor; [exact Hs | constructor; exact E].
Qed.

Lemma sort_desc_sorted (l : list A) :
  Sorted (fun a b => key b <= key a) (sort_desc key l).
Proof.
  induction l as [| x l IH]; simpl; [constructor | apply insert_desc_sorted, IH].
Qed.

Lemma sort_desc_nil (l : list A) : sort_desc key l = [] -> l = [].
Proof.
  intros H. pose proof (sort_desc_perm l) as Hp. rewrite H in Hp.
  now apply Permutation_nil.
Qed.

End SortFacts.

Lemma with_scores_fst {A : Type} (f : A -> result Q) (l : list A) :
  forall scored : list (A * Q), with_scores f l = Ok scored -> map fst scored = l.
Proof.
  unfold with_scores.
  induction l as [| x l IH]; intros scored H; simpl in H.
  - now injection H as <-.
  - destruct (f x) as [s |]; simpl in H; [| discriminate].
    destruct (traverse _ l) as [ys |]; simpl in H; [| discriminate].
    injection H as <-. simpl. f_equal. now apply IH.
Qed.

Lemma with_scores_total {A : Type} (f : A -> result Q) (l : list A) :
  (forall x : A, In x l -> exists s : Q, f x = Ok s) ->
  exists scored : list (A * Q), with_scores f l = Ok scored.
Proof.
  unfold with_scores.
  induction l as [| x l IH]; intros Hf; simpl; [eauto |].
  destruct (Hf x (or_introl eq_refl)) as [s ->]. simpl.
  destruct IH as [ys ->]; [intros y Hy; apply Hf; now right |].
  simpl. eauto.
Qed.

Lemma with_scores_raise {A : Type} (f : A -> result Q) (x : A) (l : list A) (e : exn) :
  f x = Raise e -> with_scores f (x :: l) = Raise e.
Proof. intros H. unfold with_scores. simpl. now rewrite H. Qed.

(** ** Nutrition balancer *)

Lemma weekly_target_nonzero (nutrient : string) :
  ~ get_or (dict_get weekly_targets nutrient) 1 == 0.
Proof.
  unfold weekly_targets. simpl.
  repeat match goal with
         | |- context [String.eqb nutrient ?k] => destruct (String.eqb nutrient k)
         end; simpl; intros H; discriminate H.
Qed.

Lemma nutrition_priority_loop_total (nutrition_ : gmap string Q)
      (nutrition_gaps : list (string * Q)) :
  forall score : Q, exists s : Q, nutrition_priority_loop nutrition_ nutrition_gaps score = Ok s.
Proof.
  induction nutrition_gaps as [| [nutrient gap] rest IH]; intros score; simpl; [eauto |].
  destruct (Qltb 0 gap); [| apply IH].
  rewrite (py_div_ok _ _ (weekly_target_nonzero nutrient)). simpl. apply IH.
Qed.

Lemma balance_nutrition_weekly_total (meals : list Meal) :
  exists out : list Meal,
    balance_nutrition_weekly meals = Ok out /\ Permutation meals out.
Proof.
  unfold balance_nutrition_weekly.
  destruct (List.length meals <? 7)%nat; [eauto using Permutation_refl |].
  destruct (with_scores_total
              (nutrition_priority_score (nutrition_gaps_of (sum_nutrition meals))) meals)
    as [scored Hs].
  { intros meal _. apply nutrition_priority_loop_total. }
  rewrite Hs. simpl. eexists. split; [reflexivity |].
  rewrite <- (with_scores_fst _ _ _ Hs) at 1.
  apply Permutation_map, sort_desc_perm.
Qed.

(** C4: the balancer returns its input unchanged when it has fewer than
    7 meals, and a permutation of its input when it has 7 or more. *)
Theorem balance_nutrition_weekly_permutation (meals : list Meal) :
  ((List.length meals < 7)%nat -> balance_nutrition_weekly meals = Ok meals)
  /\ ((7 <= List.length meals)%nat ->
      exists out : list Meal,
        balance_nutrition_weekly meals = Ok out /\ Permutation meals out).
Proof.
  split.
  - intros H. unfold balance_nutrition_weekly.
    apply Nat.ltb_lt in H. now rewrite H.
  - intros _. apply balance_nutrition_weekly_total.
Qed.

Lemma balance_nutrition_weekly_permutation_witness :
  ((List.length [tofu; steak] < 7)%nat
   /\ balance_nutrition_weekly [tofu; steak] = Ok [tofu; steak])
  /\ ((7 <= List.length week)%nat
      /\ exists out : list Meal,
          balance_nutrition_weekly week = Ok out /\ Permutation week out).
Proof.
  split.
  - assert (H : (List.length [tofu; steak] < 7)%nat) by (simpl; lia).
    split; [exact H |].
    exact (proj1 (balance_nutrition_weekly_permutation [tofu; steak]) H).
  - assert (H : (7 <= List.length week)%nat) by (simpl; lia).
    split; [exact H |].
    exact (proj2 (balance_nutrition_weekly_permutation week) H).
Defined.

(** ** Nutrition totals *)

Lemma add_items_absent (items : list (string * Q)) (n : string) :
  forall totals : gmap string Q,
    ~ In n (map fst items) -> add_items items totals !! n = totals !! n.
Proof.
  induction items as [| [k v] items IH]; intros totals H; simpl in *; [reflexivity |].
  unfold add_items in *. simpl. rewrite IH by tauto.
  unfold counter_add. simpl. apply lookup_insert_ne. intros ->. tauto.
Qed.

Lemma add_items_present (items : list (string * Q)) (n : string) (v : Q) :
  forall totals : gmap string Q,
    NoDup (map fst items) -> In (n, v) items ->
    add_items items totals !! n = Some (get_or (totals !! n) 0 + v).
Proof.
  induction items as [| [k w] items IH]; intros totals Hnd Hin; simpl in *; [tauto |].
  apply NoDup_cons in Hnd as [Hk Hnd]. rewrite list_elem_of_In in Hk.
  unfold add_items in *. simpl. destruct Hin as [Heq | Hin].
  - injection Heq as -> ->.
    change (add_items items (counter_add totals n v) !! n
            = Some (get_or (totals !! n) 0 + v)).
    rewrite add_items_absent by exact Hk.
    unfold counter_add. apply lookup_insert_eq.
  - rewrite (IH _ Hnd Hin). unfold counter_add. simpl.
    rewrite lookup_insert_ne; [reflexivity |].
    intros ->. apply Hk. change n with (fst (n, v)). now apply in_map.
Qed.

Lemma add_nutrition_lookup (totals : gmap string Q) (meal : Meal) (n : string) :
  add_nutrition totals meal !! n
  = match nutrition_of meal !! n with
    | Some v => Some (get_or (totals !! n) 0 + v)
    | None => totals !! n
    end.
Proof.
  unfold add_nutrition. fold (nutrition_of meal).
  change (fold_left _ ?l totals) with (add_items l totals).
  destruct (nutrition_of meal !! n) as [v |] eqn:E.
  - apply add_items_present.
    + apply NoDup_fst_map_to_list.
    + apply list_elem_of_In, elem_of_map_to_list, E.
  - apply add_items_absent. intros Hin.
    apply in_map_iff in Hin as ([k v] & Hk & Hin). simpl in Hk. subst k.
    apply list_elem_of_In, elem_of_map_to_list in Hin. congruence.
Qed.

Lemma sum_from (l : list Q) (a : Q) : fold_left Qplus l a == a + sum l.
Proof.
  unfold sum. revert a. induction l as [| x l IH]; intros a; simpl; [lra |].
  rewrite (IH (a + x)), (IH (0 + x)). lra.
Qed.

Lemma fold_add_nutrition_total (nutrient : string) (meal_plan : list Meal) :
  forall totals : gmap string Q,
    get_or (fold_left add_nutrition meal_plan totals !! nutrient) 0
    == get_or (totals !! nutrient) 0 + plan_total nutrient meal_plan.
Proof.
  unfold plan_total.
  induction meal_plan as [| meal rest IH]; intros totals; simpl.
  - unfold sum. simpl. lra.
  - rewrite IH, add_nutrition_lookup.
    unfold sum at 2. simpl. rewrite sum_from.
    destruct (nutrition_of meal !! nutrient); simpl; lra.
Qed.

(** The analyzer's and the balancer's totals are the sums over the plan. *)
Lemma sum_nutrition_total (nutrient : string) (meal_plan : list Meal) :
  get_or (sum_nutrition meal_plan !! nutrient) 0 == plan_total nutrient meal_plan.
Proof.
  unfold sum_nutrition. rewrite fold_add_nutrition_total.
  rewrite lookup_empty. simpl. lra.
Qed.

Lemma fold_add_nutrition_absent (nutrient : string) (meal_plan : list Meal) :
  (forall meal : Meal, In meal meal_plan -> nutrition_of meal !! nutrient = None) ->
  forall totals : gmap string Q,
    fold_left add_nutrition meal_plan totals !! nutrient = totals !! nutrient.
Proof.
  induction meal_plan as [| meal rest IH]; intros H totals; simpl; [reflexivity |].
  rewrite IH by (intros m Hm; apply H; now right).
  rewrite add_nutrition_lookup, (H meal (or_introl eq_refl)). reflexivity.
Qed.

(** ** Nutrition analyzer *)

Lemma nutrient_balance_total (current recommended : Q) :
  exists b : Q, nutrient_balance current recommended = Ok b.
Proof.
  unfold nutrient_balance. destruct (Qltb 0 recommended) eqn:E; simpl; [| eauto].
  apply Qltb_lt in E. rewrite py_div_ok by lra. simpl. eauto.
Qed.

Lemma nutrient_balance_zero (recommended : Q) :
  exists b : Q, nutrient_balance 0 recommended = Ok b /\ b == 0.
Proof.
  unfold nutrient_balance. destruct (Qltb 0 recommended) eqn:E; cbn [bind].
  - apply Qltb_lt in E. rewrite py_div_ok by lra. cbn [bind].
    assert (Hr : 0 / recommended == 0) by (unfold Qdiv; lra).
    assert (Hle : Qle_bool (0 / recommended) 2 = true) by (apply Qle_bool_iff; lra).
    rewrite Hle. eexists. split; [reflexivity |].
    revert Hr. generalize (0 / recommended). intros q Hq.
    apply Qabs_case; intros; lra.
  - eexists. split; reflexivity.
Qed.

Lemma gap_loop_spec (total_nutrition : gmap string Q) (items : list (string * Q)) :
  forall st : GapState,
  exists st' : GapState,
    gap_loop total_nutrition items st = Ok st'
    /\ (forall n : string,
           ~ In n (map fst items) ->
           st_gaps st' !! n = st_gaps st !! n
           /\ st_excesses st' !! n = st_excesses st !! n)
    /\ (NoDup (map fst items) ->
        forall (n : string) (r : Q),
          In (n, r) items ->
          let current := get_or (total_nutrition !! n) 0 in
          st_gaps st' !! n = gap_entry current r (st_gaps st !! n)
          /\ st_excesses st' !! n = excess_entry current r (st_excesses st !! n))
    /\ exists scores : list Q,
        balance_scores st' = balance_scores st ++ scores
        /\ Forall2 (fun item b =>
                      nutrient_balance (get_or (total_nutrition !! fst item) 0) (snd item)
                      = Ok b) items scores.
Proof.
  induction items as [| [k r] items IH]; intros st; simpl.
  - exists st. repeat split; try tauto.
    exists []. split; [now rewrite app_nil_r | constructor].
  - unfold gap_step at 1. simpl.
    destruct (nutrient_balance_total (get_or (total_nutrition !! k) 0) r) as [b Hb].
    rewrite Hb. simpl.
    match goal with |- context [gap_loop _ _ ?s] => destruct (IH s) as (st' & Hrun & Hout & Hin & Hsc) end.
    exists st'. split; [exact Hrun |]. simpl in *. split; [| split].
    + intros n Hn. destruct (Hout n ltac:(tauto)) as [Hg He].
      rewrite Hg, He.
      assert (k <> n) by tauto.
      destruct (Qltb _ (r * 0.8)); [| destruct (Qltb (r * 1.2) _)];
        rewrite ?lookup_insert_ne by assumption; auto.
    + intros Hnd n r' [Heq | Hmem].
      * injection Heq as -> ->.
        apply NoDup_cons in Hnd as [Hk _]. rewrite list_elem_of_In in Hk.
        destruct (Hout n Hk) as [Hg He]. rewrite Hg, He.
        unfold gap_entry, excess_entry.
        destruct (Qltb _ (r' * 0.8)); [| destruct (Qltb (r' * 1.2) _)];
          rewrite ?lookup_insert_eq; auto.
      * apply NoDup_cons in Hnd as [Hk Hnd]. rewrite list_elem_of_In in Hk.
        destruct (Hin Hnd n r' Hmem) as [Hg He]. rewrite Hg, He.
        assert (k <> n).
        { intros ->. apply Hk. change n with (fst (n, r')). now apply in_map. }
        destruct (Qltb _ (r * 0.8)); [| destruct (Qltb (r * 1.2) _)];
          rewrite ?lookup_insert_ne by assumption; auto.
    + destruct Hsc as (scores & Happ & Hall).
      exists (b :: scores). split.
      * rewrite Happ, <- app_assoc. reflexivity.
      * constructor; assumption.
Qed.

Lemma weekly_recommendations_nodup : NoDup (map fst weekly_recommendations).
Proof. apply (bool_decide_unpack _). vm_compute. reflexivity. Qed.

(** C6: the analyzer returns a report in which, for each of the six
    target nutrients, [current] being the plan's total: a gap
    [target - current] is recorded (and no excess) when
    [current < 0.8 target]; an excess [current - target] (and no gap)
    when [current > 1.2 target]; neither otherwise.  When no meal of the
    plan has 'protein' in its nutrition, the protein gap is exactly 350
    and the protein balance score is 0. *)
Theorem analyze_nutrition_gaps_spec (meal_plan : list Meal) :
  exists a : Analysis,
    analyze_nutrition_gaps meal_plan = Ok a
    /\ (forall (nutrient : string) (target : Q),
           In (nutrient, target) weekly_recommendations ->
           let current := get_or (current_totals a !! nutrient) 0 in
           current == plan_total nutrient meal_plan
           /\ (current < target * 0.8 ->
               gaps a !! nutrient = Some (target - current)
               /\ excesses a !! nutrient = None)
           /\ (target * 1.2 < current ->
               excesses a !! nutrient = Some (current - target)
               /\ gaps a !! nutrient = None)
           /\ (target * 0.8 <= current <= target * 1.2 ->
               gaps a !! nutrient = None /\ excesses a !! nutrient = None))
    /\ ((forall meal : Meal, In meal meal_plan -> nutrition_of meal !! "protein" = None) ->
        gaps a !! "protein" = Some 350
        /\ excesses a !! "protein" = None
        /\ exists b : Q,
            nutrient_balance (get_or (current_totals a !! "protein") 0) 350 = Ok b
            /\ b == 0).
Proof.
  unfold analyze_nutrition_gaps.
  destruct (gap_loop_spec (sum_nutrition meal_plan) weekly_recommendations (mkGap ∅ ∅ []))
    as (st & Hrun & _ & Hin & _).
  specialize (Hin weekly_recommendations_nodup).
  rewrite Hrun. simpl. eexists. split; [reflexivity |]. simpl. split.
  - intros nutrient target Hmem.
    destruct (Hin nutrient target Hmem) as [Hg He]. simpl in Hg, He.
    rewrite !lookup_empty in *. unfold gap_entry in Hg. unfold excess_entry in He.
    split; [apply sum_nutrition_total |].
    rewrite Hg, He.
    assert (Hpos : 0 < target).
    { simpl in Hmem.
      repeat (destruct Hmem as [Hmem | Hmem]; [injection Hmem as _ <-; reflexivity |]).
      contradiction. }
    destruct (Qltb _ (target * 0.8)) eqn:E1; [| destruct (Qltb (target * 1.2) _) eqn:E2].
    + apply Qltb_lt in E1.
      split; [| split]; intros H; try (exfalso; lra). split; reflexivity.
    + apply Qltb_ge in E1. apply Qltb_lt in E2.
      split; [| split]; intros H; try (exfalso; lra). split; reflexivity.
    + apply Qltb_ge in E1. apply Qltb_ge in E2.
      split; [| split]; intros H; try (exfalso; lra). split; reflexivity.
  - intros Habsent.
    assert (Hnone : sum_nutrition meal_plan !! "protein" = None).
    { unfold sum_nutrition. rewrite fold_add_nutrition_absent by exact Habsent.
      apply lookup_empty. }
    destruct (Hin "protein" 350 ltac:(simpl; auto)) as [Hg He]. simpl in Hg, He.
    rewrite Hnone in *. simpl in *. rewrite lookup_empty in *.
    split; [exact Hg | split; [exact He |]].
    apply nutrient_balance_zero.
Qed.

Lemma analyze_nutrition_gaps_spec_witness :
  In ("carbs", 1400) weekly_recommendations
  /\ (forall meal : Meal, In meal no_protein_week -> nutrition_of meal !! "protein" = None)
  /\ exists a : Analysis,
      analyze_nutrition_gaps no_protein_week = Ok a
      /\ get_or (current_totals a !! "carbs") 0 == plan_total "carbs" no_protein_week
      /\ gaps a !! "protein" = Some 350
      /\ excesses a !! "protein" = None.
Proof.
  assert (Hc : In ("carbs", 1400) weekly_recommendations) by (simpl; auto).
  assert (Hp : forall meal : Meal,
             In meal no_protein_week -> nutrition_of meal !! "protein" = None).
  { intros meal H. simpl in H.
    repeat (destruct H as [<- | H]; [vm_compute; reflexivity |]). contradiction. }
  split; [exact Hc | split; [exact Hp |]].
  destruct (analyze_nutrition_gaps_spec no_protein_week) as (a & Ha & Hall & Hprot).
  exists a. split; [exact Ha |].
  split; [exact (proj1 (Hall "carbs" 1400 Hc)) |].
  destruct (Hprot Hp) as (Hg & He & _). split; [exact Hg | exact He].
Defined.

(** ** Preference learner *)

Lemma learn_prep_times (meal_history : list Meal) :
  forall st : LearnState,
    prep_time_preferences (fold_left learn_step meal_history st)
    = prep_time_preferences st ++ history_prep_times meal_history.
Proof.
  induction meal_history as [| meal rest IH]; intros st; simpl.
  - now rewrite app_nil_r.
  - rewrite IH. simpl. now rewrite <- app_assoc.
Qed.

Lemma mean_zero_iff (l : list Q) : l <> [] -> (mean l == 0 <-> sum l == 0).
Proof.
  intros Hne. unfold mean.
  assert (Hlen : 0 < of_nat (List.length l)).
  { apply of_nat_pos. destruct l; [congruence | simpl; lia]. }
  split; intros H.
  - rewrite <- (Qmult_div_r (sum l) (of_nat (List.length l))) by lra.
    rewrite H. lra.
  - rewrite H. unfold Qdiv. lra.
Qed.

(** The learner is total, and its [avg_prep_time] is the Python 30 on an
    empty history and the numpy mean of the collected prep times
    otherwise. *)
Lemma analyze_user_preferences_total (meal_history : list Meal) :
  exists user_prefs : Prefs,
    analyze_user_preferences meal_history = Ok user_prefs
    /\ avg_prep_time user_prefs
       = Some (match meal_history with
               | [] => PyNum 30
               | _ => NpFloat (mean (history_prep_times meal_history))
               end).
Proof.
  destruct meal_history as [| meal rest]; [simpl; eauto |].
  unfold analyze_user_preferences.
  set (h := meal :: rest).
  assert (Hlen : (0 < List.length h)%nat) by (simpl; lia).
  apply Nat.ltb_lt in Hlen as Hb. rewrite Hb.
  rewrite py_div_ok by (apply of_nat_pos in Hlen; lra).
  cbn [bind]. eexists. split; [reflexivity |]. cbn [avg_prep_time].
  rewrite learn_prep_times. cbn [prep_time_preferences app].
  reflexivity.
Qed.

Lemma scorable_avg (meal_history : list Meal) (user_prefs : Prefs) :
  analyze_user_preferences meal_history = Ok user_prefs ->
  (scorable meal_history <->
   ~ value (get_or (avg_prep_time user_prefs) (PyNum 30)) == 0).
Proof.
  intros H. destruct (analyze_user_preferences_total meal_history) as (p & Hp & Havg).
  rewrite H in Hp. injection Hp as <-. rewrite Havg. cbn [get_or]. unfold scorable.
  destruct meal_history as [| meal rest]; cbn [value].
  - split; [intros _ Hc; discriminate Hc | auto].
  - rewrite mean_zero_iff by discriminate.
    split; [intros [Hc | Hs]; [discriminate Hc | exact Hs] | auto].
Qed.

(** No learned profile has a Python zero as its preferred prep time: on
    a non-empty history it is a numpy float. *)
Lemma learned_not_python_zero (meal_history : list Meal) (user_prefs : Prefs) :
  analyze_user_preferences meal_history = Ok user_prefs ->
  ~ python_zero (get_or (avg_prep_time user_prefs) (PyNum 30)).
Proof.
  intros H. destruct (analyze_user_preferences_total meal_history) as (p & Hp & Havg).
  rewrite H in Hp. injection Hp as <-. rewrite Havg. cbn [get_or].
  destruct meal_history as [| meal rest]; cbn [python_zero]; [| tauto].
  intros Hc. discriminate Hc.
Qed.

(** ** Plan generator *)

Lemma weighted_random_choice_member {T : Type} (r : Q) (candidates : list (T * Q)) :
  candidates <> [] ->
  exists c : T * Q,
    _weighted_random_choice r candidates (map (fun c => snd c + 0.1) candidates)
    = Ok (Some c)
    /\ In c candidates.
Proof.
  intros Hne. unfold _weighted_random_choice.
  apply weighted_pick_member; [exact Hne | apply length_map].
Qed.

(** With a non-empty scored list every day selects one of its meals. *)
Lemma day_step_spec (rnd : nat -> Q) (meal_scores : list (Meal * Q)) (st : GenState) :
  meal_scores <> [] ->
  exists (c : Meal * Q) (used : gset string),
    In c meal_scores
    /\ day_step rnd meal_scores st
       = Ok (mkGen (selected_meals st ++ [fst c]) used (S (draws st))).
Proof.
  intros Hne. unfold day_step.
  set (unused := List.filter _ meal_scores).
  set (available := match unused with [] => meal_scores | _ => unused end).
  assert (Havail : available <> [] /\ forall c, In c available -> In c meal_scores).
  { unfold available. destruct unused as [| c0 cs] eqn:E.
    - split; [exact Hne | auto].
    - split; [discriminate |]. intros c Hc. rewrite <- E in Hc.
      unfold unused in Hc. now apply filter_In in Hc. }
  destruct Havail as [Hane Hsub].
  destruct (weighted_random_choice_member (rnd (draws st)) available Hane) as (c & Hc & Hin).
  destruct available as [| a0 rest] eqn:Ea; [congruence |].
  rewrite Hc. cbn [bind]. eexists c, _. split; [apply Hsub, Hin | reflexivity].
Qed.

Lemma days_loop_spec (rnd : nat -> Q) (meal_scores : list (Meal * Q)) :
  meal_scores <> [] ->
  forall (days : nat) (st : GenState),
  exists (st' : GenState) (picked : list Meal),
    days_loop rnd meal_scores days st = Ok st'
    /\ selected_meals st' = selected_meals st ++ picked
    /\ List.length picked = days
    /\ Forall (fun meal => In meal (map fst meal_scores)) picked.
Proof.
  intros Hne. induction days as [| days IH]; intros st; simpl.
  - exists st, []. repeat split; [now rewrite app_nil_r | constructor].
  - destruct (day_step_spec rnd meal_scores st Hne) as (c & used & Hin & Hstep).
    rewrite Hstep. cbn [bind].
    destruct (IH (mkGen (selected_meals st ++ [fst c]) used (S (draws st))))
      as (st' & picked & Hrun & Hsel & Hlen & Hall).
    exists st', (fst c :: picked). repeat split.
    + exact Hrun.
    + rewrite Hsel. cbn [selected_meals]. now rewrite <- app_assoc.
    + simpl. now rewrite Hlen.
    + constructor; [now apply in_map | exact Hall].
Qed.

Lemma filter_meals_In (available_meals : list Meal) (dietary_restrictions : list string)
      (meal : Meal) :
  In meal (filter_meals available_meals dietary_restrictions) <->
  In meal available_meals /\ _meets_dietary_restrictions meal dietary_restrictions = true.
Proof. unfold filter_meals. apply filter_In. Qed.

(** The generator, step by step, on a non-empty filtered catalog. *)
Lemma generate_smart_meal_plan_run (rnd : nat -> Q)
      (available_meals meal_history : list Meal) (days : Z)
      (dietary_restrictions : option (list string)) :
  filter_meals available_meals (get_or dietary_restrictions []) <> [] ->
  exists plan : list Meal,
    generate_smart_meal_plan rnd available_meals meal_history days dietary_restrictions
    = Ok plan
    /\ List.length plan = Z.to_nat days
    /\ Forall (fun meal =>
                 In meal (filter_meals available_meals (get_or dietary_restrictions [])))
              plan.
Proof.
  intros Hne. unfold generate_smart_meal_plan.
  destruct (analyze_user_preferences_total meal_history) as (user_prefs & Hp & _).
  rewrite Hp. cbn [bind].
  pose proof (learned_not_python_zero _ _ Hp) as Hsc.
  set (filtered := filter_meals available_meals (get_or dietary_restrictions [])) in *.
  set (recent := names_of (last_n 14 meal_history)).
  destruct (with_scores_total
              (fun meal => calculate_meal_score meal user_prefs recent) filtered)
    as [scored Hs].
  { intros meal _.
    destruct (calculate_meal_score_ok meal user_prefs recent Hsc) as (s & -> & _).
    eauto. }
  destruct filtered as [| m0 ms] eqn:Ef; [congruence |].
  rewrite Hs. cbn [bind].
  pose proof (with_scores_fst _ _ _ Hs) as Hfst.
  assert (Hsorted : sort_desc snd scored <> []).
  { intros Hnil. apply sort_desc_nil in Hnil. subst scored. discriminate Hfst. }
  destruct (days_loop_spec rnd _ Hsorted (Z.to_nat days) (mkGen [] ∅ 0))
    as (st & picked & Hrun & Hsel & Hlen & Hall).
  rewrite Hrun. cbn [bind]. simpl in Hsel. subst picked.
  destruct (balance_nutrition_weekly_total (selected_meals st)) as (out & Hb & Hperm).
  exists out. split; [exact Hb |]. split.
  - rewrite <- (Permutation_length Hperm). exact Hlen.
  - apply (Permutation_Forall Hperm).
    eapply List.Forall_impl; [| exact Hall]. intros meal Hm. simpl in Hm.
    rewrite <- Hfst.
    eapply Permutation_in; [| exact Hm].
    apply Permutation_sym, Permutation_map, sort_desc_perm.
Qed.

Lemma generate_smart_meal_plan_empty (rnd : nat -> Q)
      (available_meals meal_history : list Meal) (days : Z)
      (dietary_restrictions : option (list string)) :
  filter_meals available_meals (get_or dietary_restrictions []) = [] ->
  generate_smart_meal_plan rnd available_meals meal_history days dietary_restrictions
  = Ok [].
Proof.
  intros He. unfold generate_smart_meal_plan.
  destruct (analyze_user_preferences_total meal_history) as (user_prefs & -> & _).
  cbn [bind]. now rewrite He.
Qed.

(** C1 (as the code has it): the generator returns a plan; on a
    non-empty filtered catalog the plan has [max(days, 0)] meals; and the
    plan is empty if and only if the filtered catalog is empty or
    [days <= 0]. *)
Theorem generate_smart_meal_plan_length (rnd : nat -> Q)
        (available_meals meal_history : list Meal) (days : Z)
        (dietary_restrictions : option (list string)) :
  exists plan : list Meal,
    generate_smart_meal_plan rnd available_meals meal_history days dietary_restrictions
    = Ok plan
    /\ (filter_meals available_meals (get_or dietary_restrictions []) <> [] ->
        Z.of_nat (List.length plan) = Z.max days 0)
    /\ (plan = [] <->
        filter_meals available_meals (get_or dietary_restrictions []) = []
        \/ (days <= 0)%Z).
Proof.
  destruct (filter_meals available_meals (get_or dietary_restrictions [])) as [| m0 ms] eqn:Ef.
  - exists []. split; [now apply generate_smart_meal_plan_empty |].
    split; [congruence | tauto].
  - destruct (generate_smart_meal_plan_run rnd available_meals meal_history days
                                           dietary_restrictions)
      as (plan & Hrun & Hlen & _); [rewrite Ef; discriminate |].
    exists plan. split; [exact Hrun |]. split.
    + intros _. rewrite Hlen. lia.
    + split.
      * intros ->. right. simpl in Hlen. lia.
      * intros [Hc | Hd]; [discriminate Hc |].
        destruct plan; [reflexivity | simpl in Hlen; lia].
Qed.

Lemma generate_smart_meal_plan_length_witness :
  filter_meals [tofu; steak; oatmeal] (get_or (Some ["gluten-free"]) []) <> []
  /\ exists plan : list Meal,
      generate_smart_meal_plan (fun _ => 0.5) [tofu; steak; oatmeal] [water; water] 7
                               (Some ["gluten-free"])
      = Ok plan
      /\ Z.of_nat (List.length plan) = Z.max 7 0.
Proof.
  assert (H : filter_meals [tofu; steak; oatmeal] (get_or (Some ["gluten-free"]) []) <> [])
    by (vm_compute; discriminate).
  split; [exact H |].
  destruct (generate_smart_meal_plan_length (fun _ => 0.5) [tofu; steak; oatmeal]
                                            [water; water] 7 (Some ["gluten-free"]))
    as (plan & Hp & Hlen & _).
  exists plan. split; [exact Hp | exact (Hlen H)].
Defined.

(** C1 as stated fails.  With [days = 0] the plan is empty although the
    filtered catalog is not; with [days = -1] the plan does not have
    [days] meals. *)
Lemma generate_smart_meal_plan_nonpositive_days :
  (exists plan : list Meal,
      generate_smart_meal_plan (fun _ => 0.5) [tofu] [] 0 None = Ok plan
      /\ ~ (plan = [] <-> filter_meals [tofu] (get_or None []) = []))
  /\ (exists plan : list Meal,
         generate_smart_meal_plan (fun _ => 0.5) [tofu] [] (-1) None = Ok plan
         /\ filter_meals [tofu] (get_or None []) <> []
         /\ Z.of_nat (List.length plan) <> (-1)%Z).
Proof.
  split.
  - exists []. split; [vm_compute; reflexivity |].
    intros [H _]. specialize (H eq_refl). vm_compute in H. discriminate H.
  - exists []. split; [vm_compute; reflexivity |].
    split; [vm_compute; discriminate | simpl; lia].
Qed.

(** C9: for every catalog, history, restriction list and day count the
    generator returns a plan, and every meal of that plan is a meal of
    the supplied catalog that passes the dietary filter for the supplied
    restrictions. *)
Theorem generate_smart_meal_plan_admissible (rnd : nat -> Q)
        (available_meals meal_history : list Meal) (days : Z)
        (dietary_restrictions : option (list string)) :
  exists plan : list Meal,
    generate_smart_meal_plan rnd available_meals meal_history days dietary_restrictions
    = Ok plan
    /\ Forall (fun meal =>
                 In meal available_meals
                 /\ _meets_dietary_restrictions meal (get_or dietary_restrictions []) = true)
              plan.
Proof.
  destruct (filter_meals available_meals (get_or dietary_restrictions [])) as [| m0 ms] eqn:Ef.
  - exists []. split; [now apply generate_smart_meal_plan_empty | constructor].
  - assert (Hne : filter_meals available_meals (get_or dietary_restrictions []) <> [])
      by (rewrite Ef; discriminate).
    destruct (generate_smart_meal_plan_run rnd available_meals meal_history days
                                           dietary_restrictions Hne)
      as (plan & Hrun & _ & Hall).
    exists plan. split; [exact Hrun |].
    eapply List.Forall_impl; [| exact Hall].
    intros meal Hm. now apply filter_meals_In.
Qed.

(** C8 (what the code does): a history whose only entry has
    [prepTime = 0] gives the numpy float 0 as [avg_prep_time].  The
    division of the prep-time term then has a zero divisor: its quotient
    is inf for a meal with the default prep time and nan for a meal
    whose prep time is 0 as well, the prep-time term is 0 in both cases,
    nothing is raised and a plan is returned. *)
Theorem generate_smart_meal_plan_divides_by_zero (rnd : nat -> Q) :
  exists (user_prefs : Prefs) (z : Q),
    analyze_user_preferences [water] = Ok user_prefs
    /\ avg_prep_time user_prefs = Some (NpFloat z)
    /\ z == 0
    /\ time_diff_of bare_meal user_prefs = Ok Infinite
    /\ time_diff_of water user_prefs = Ok NotANumber
    /\ time_score_of Infinite = 0
    /\ time_score_of NotANumber = 0
    /\ generate_smart_meal_plan rnd [bare_meal] [water] 1 None = Ok [bare_meal].
Proof.
  eexists _, _. split; [vm_compute; reflexivity |].
  split; [reflexivity |]. split; [vm_compute; reflexivity |].
  split; [vm_compute; reflexivity |]. split; [vm_compute; reflexivity |].
  split; [reflexivity |]. split; [reflexivity |].
  destruct (generate_smart_meal_plan_run rnd [bare_meal] [water] 1 None)
    as (plan & Hrun & Hlen & Hall); [discriminate |].
  rewrite Hrun. f_equal.
  destruct plan as [| m [| m' plan]]; try discriminate Hlen.
  apply Forall_inv in Hall. destruct Hall as [<- | []]. reflexivity.
Qed.

(** * Further properties *)

(** ** Strings *)

Lemma ascii_lower_idem (c : ascii) : ascii_lower (ascii_lower c) = ascii_lower c.
Proof.
  destruct c as [b0 b1 b2 b3 b4 b5 b6 b7].
  destruct b0, b1, b2, b3, b4, b5, b6, b7; reflexivity.
Qed.

Lemma lower_idem (s : string) : lower (lower s) = lower s.
Proof.
  induction s as [| c s IH]; simpl; [reflexivity |].
  now rewrite ascii_lower_idem, IH.
Qed.

Lemma prefix_app (a : string) :
  forall sub b : string,
    String.prefix sub a = true -> String.prefix sub (a ++ b)%string = true.
Proof.
  induction a as [| c a IH]; intros sub b H.
  - destruct sub; [destruct b; reflexivity | discriminate H].
  - destruct sub as [| d sub]; [reflexivity |]. simpl in *.
    destruct (ascii_dec d c); [now apply IH | discriminate H].
Qed.

Lemma contains_unfold (sub s : string) :
  contains sub s
  = if String.prefix sub s then true
    else match s with
         | EmptyString => false
         | String _ s' => contains sub s'
         end.
Proof. destruct s; reflexivity. Qed.

Lemma contains_app_l (sub a b : string) :
  contains sub a = true -> contains sub (a ++ b)%string = true.
Proof.
  induction a as [| c a IH]; intros H.
  - rewrite contains_unfold in H.
    destruct (String.prefix sub "") eqn:E; [| discriminate H].
    rewrite contains_unfold, (prefix_app "" sub b E). reflexivity.
  - rewrite contains_unfold in H. rewrite contains_unfold.
    destruct (String.prefix sub (String c a)) eqn:E.
    + now rewrite (prefix_app _ sub b E).
    + destruct (String.prefix sub (String c a ++ b)%string); [reflexivity |].
      simpl. now apply IH.
Qed.

Lemma contains_app_r (sub a b : string) :
  contains sub b = true -> contains sub (a ++ b)%string = true.
Proof.
  intros H. induction a as [| c a IH]; [exact H |].
  rewrite contains_unfold.
  destruct (String.prefix sub (String c a ++ b)%string); [reflexivity | exact IH].
Qed.

(** A word found in one element is found in the joined string. *)
Lemma contains_join (sub sep x : string) (l : list string) :
  In x l -> contains sub x = true -> contains sub (join sep l) = true.
Proof.
  unfold join. induction l as [| y l IH]; intros Hin Hx; [contradiction |].
  destruct l as [| z l].
  - destruct Hin as [-> | []]. exact Hx.
  - change (String.concat sep (y :: z :: l))
      with (y ++ sep ++ String.concat sep (z :: l))%string.
    destruct Hin as [-> | Hin].
    + now apply contains_app_l.
    + apply contains_app_r, contains_app_r. now apply IH.
Qed.

(** ** Dietary filter *)

Lemma meets_single (meal : Meal) (r : string) :
  _meets_dietary_restrictions meal [r]
  = match restriction_checks meal (lower r) with
    | Some false => false
    | _ => true
    end.
Proof. reflexivity. Qed.

Lemma meets_forall (meal : Meal) (restrictions : list string) :
  _meets_dietary_restrictions meal restrictions = true <->
  forall r : string, In r restrictions -> _meets_dietary_restrictions meal [r] = true.
Proof. rewrite dietary_filter_forallb. apply forallb_forall. Qed.

(** X1: restriction names are matched case-insensitively: lowercasing
    the names of a restriction list does not change the verdict. *)
Theorem dietary_filter_case_insensitive (meal : Meal) (restrictions : list string) :
  _meets_dietary_restrictions meal (map lower restrictions)
  = _meets_dietary_restrictions meal restrictions.
Proof.
  unfold _meets_dietary_restrictions.
  induction restrictions as [| r rs IH]; simpl; [reflexivity |].
  now rewrite lower_idem, IH.
Qed.

(** X2: a meal that passes a restriction list passes every list made of
    restrictions of that list (order and repetitions do not matter), so a
    longer list never admits more of a catalog. *)
Theorem dietary_filter_antitone (meal : Meal) (rs rs' : list string) :
  (forall r : string, In r rs -> In r rs') ->
  (_meets_dietary_restrictions meal rs' = true ->
   _meets_dietary_restrictions meal rs = true)
  /\ (forall available_meals : list Meal,
         forall m : Meal,
           In m (filter_meals available_meals rs') -> In m (filter_meals available_meals rs)).
Proof.
  intros Hsub.
  assert (Hmono : forall m : Meal,
             _meets_dietary_restrictions m rs' = true ->
             _meets_dietary_restrictions m rs = true).
  { intros m H. rewrite meets_forall in *. auto. }
  split; [apply Hmono |].
  intros available_meals m Hm. apply filter_meals_In in Hm as [Hin Hok].
  apply filter_meals_In. auto.
Qed.

Lemma dietary_filter_antitone_witness :
  (forall r : string, In r ["gluten-free"; "vegan"] -> In r ["vegan"; "gluten-free"; "vegan"])
  /\ _meets_dietary_restrictions tofu ["vegan"; "gluten-free"; "vegan"] = true
  /\ _meets_dietary_restrictions tofu ["gluten-free"; "vegan"] = true.
Proof.
  assert (H : forall r : string,
             In r ["gluten-free"; "vegan"] -> In r ["vegan"; "gluten-free"; "vegan"]).
  { intros r Hr. simpl in *. tauto. }
  assert (H' : _meets_dietary_restrictions tofu ["vegan"; "gluten-free"; "vegan"] = true)
    by (vm_compute; reflexivity).
  split; [exact H | split; [exact H' |]].
  exact (proj1 (dietary_filter_antitone tofu _ _ H) H').
Defined.

(** X3: every meal that passes 'keto' passes 'low-carb'. *)
Theorem keto_implies_low_carb (meal : Meal) :
  _meets_dietary_restrictions meal ["keto"] = true ->
  _meets_dietary_restrictions meal ["low-carb"] = true.
Proof.
  rewrite !meets_single.
  change (lower "keto") with "keto". change (lower "low-carb") with "low-carb".
  unfold restriction_checks. simpl.
  destruct (Qltb (nutrient_or meal "carbs" 50) 20) eqn:E; simpl; [| discriminate].
  intros _. apply Qltb_lt in E.
  assert (H : Qltb (nutrient_or meal "carbs" 50) 30 = true) by (apply Qltb_lt; lra).
  now rewrite H.
Qed.

Lemma keto_implies_low_carb_witness :
  _meets_dietary_restrictions keto_plate ["keto"] = true
  /\ _meets_dietary_restrictions keto_plate ["low-carb"] = true.
Proof.
  assert (H : _meets_dietary_restrictions keto_plate ["keto"] = true)
    by (vm_compute; reflexivity).
  split; [exact H | exact (keto_implies_low_carb keto_plate H)].
Defined.

(** X4: a meal that passes 'vegan' without carrying the 'vegan' tag
    carries the 'vegetarian' tag and has no dairy word in its
    ingredients, so it passes 'vegetarian' and 'dairy-free' as well. *)
Theorem vegan_untagged_implies_vegetarian_dairy_free (meal : Meal) :
  _meets_dietary_restrictions meal ["vegan"] = true ->
  mem "vegan" (meal_tags meal) = false ->
  mem "vegetarian" (meal_tags meal) = true
  /\ _meets_dietary_restrictions meal ["vegetarian"; "dairy-free"] = true.
Proof.
  intros Hv Htag. rewrite meets_single in Hv.
  change (lower "vegan") with "vegan" in Hv.
  unfold restriction_checks in Hv. simpl in Hv. rewrite Htag in Hv. simpl in Hv.
  destruct (mem "vegetarian" (meal_tags meal)) eqn:Eveg; simpl in Hv; [| discriminate Hv].
  split; [reflexivity |].
  apply meets_forall. intros r [<- | [<- | []]]; rewrite meets_single.
  - change (lower "vegetarian") with "vegetarian".
    unfold restriction_checks. simpl. now rewrite Eveg.
  - change (lower "dairy-free") with "dairy-free".
    unfold restriction_checks. simpl.
    repeat match type of Hv with
           | context [contains ?w ?s] => destruct (contains w s); simpl in Hv
           end; try discriminate Hv;
      destruct (mem "dairy-free" (meal_tags meal)); reflexivity.
Qed.

Lemma vegan_untagged_implies_vegetarian_dairy_free_witness :
  _meets_dietary_restrictions lentil_soup ["vegan"] = true
  /\ mem "vegan" (meal_tags lentil_soup) = false
  /\ mem "vegetarian" (meal_tags lentil_soup) = true
  /\ _meets_dietary_restrictions lentil_soup ["vegetarian"; "dairy-free"] = true.
Proof.
  assert (H1 : _meets_dietary_restrictions lentil_soup ["vegan"] = true)
    by (vm_compute; reflexivity).
  assert (H2 : mem "vegan" (meal_tags lentil_soup) = false) by (vm_compute; reflexivity).
  split; [exact H1 | split; [exact H2 |]].
  exact (vegan_untagged_implies_vegetarian_dairy_free lentil_soup H1 H2).
Defined.

(** X5: 'low-carb' and 'keto' read a missing 'carbs' entry as 50, so a
    meal without that entry fails every restriction list that names one
    of them. *)
Theorem missing_carbs_rejected (meal : Meal) (restrictions : list string) (r : string) :
  get_or (nutrition meal) ∅ !! "carbs" = None ->
  In r restrictions ->
  lower r = "low-carb" \/ lower r = "keto" ->
  _meets_dietary_restrictions meal restrictions = false.
Proof.
  intros Hnone Hin Hr. apply not_true_is_false. intros Hok.
  rewrite meets_forall in Hok. specialize (Hok r Hin).
  rewrite meets_single in Hok.
  assert (Hc : nutrient_or meal "carbs" 50 = 50) by (unfold nutrient_or; now rewrite Hnone).
  destruct Hr as [E | E]; rewrite E in Hok;
    unfold restriction_checks in Hok; cbn [String.eqb Ascii.eqb Bool.eqb] in Hok;
    rewrite Hc in Hok; vm_compute in Hok; discriminate Hok.
Qed.

Lemma missing_carbs_rejected_witness :
  get_or (nutrition steak) ∅ !! "carbs" = None
  /\ In "Keto" ["gluten-free"; "Keto"]
  /\ (lower "Keto" = "low-carb" \/ lower "Keto" = "keto")
  /\ _meets_dietary_restrictions steak ["gluten-free"; "Keto"] = false.
Proof.
  assert (H1 : get_or (nutrition steak) ∅ !! "carbs" = None) by (vm_compute; reflexivity).
  assert (H2 : In "Keto" ["gluten-free"; "Keto"]) by (simpl; auto).
  assert (H3 : lower "Keto" = "low-carb" \/ lower "Keto" = "keto") by (right; reflexivity).
  split; [exact H1 | split; [exact H2 | split; [exact H3 |]]].
  exact (missing_carbs_rejected steak _ "Keto" H1 H2 H3).
Defined.

Lemma any_contains_ingredient (meal : Meal) (words : list string) (ing word : string) :
  In ing (get_or (ingredients meal) []) ->
  In word words ->
  contains word (lower ing) = true ->
  any (fun w => contains w (join " " (meal_ingredients meal))) words = true.
Proof.
  intros Hing Hword Hc. unfold any. apply existsb_exists. exists word.
  split; [exact Hword |].
  apply (contains_join word " " (lower ing)); [| exact Hc].
  unfold meal_ingredients. now apply in_map.
Qed.

(** X6: the word lists are matched as substrings of the lowercased
    ingredients.  An ingredient that contains a listed word makes the
    meal fail the restriction unless the meal carries the restriction's
    own tag; for 'vegan' the 'vegetarian' tag does not help. *)
Theorem listed_ingredient_rejected (meal : Meal) (ing word : string) :
  In ing (get_or (ingredients meal) []) ->
  contains word (lower ing) = true ->
  (In word ["chicken"; "beef"; "pork"; "fish"; "turkey"; "lamb"] ->
   mem "vegetarian" (meal_tags meal) = false ->
   _meets_dietary_restrictions meal ["vegetarian"] = false)
  /\ (In word ["milk"; "cheese"; "butter"; "cream"; "yogurt"; "egg"] ->
      mem "vegan" (meal_tags meal) = false ->
      _meets_dietary_restrictions meal ["vegan"] = false)
  /\ (In word ["wheat"; "flour"; "bread"; "pasta"; "barley"; "rye"] ->
      mem "gluten-free" (meal_tags meal) = false ->
      _meets_dietary_restrictions meal ["gluten-free"] = false)
  /\ (In word ["milk"; "cheese"; "butter"; "cream"; "yogurt"] ->
      mem "dairy-free" (meal_tags meal) = false ->
      _meets_dietary_restrictions meal ["dairy-free"] = false).
Proof.
  intros Hing Hc.
  split; [| split; [| split]]; intros Hword Htag; rewrite meets_single.
  - change (lower "vegetarian") with "vegetarian".
    unfold restriction_checks. cbn [String.eqb Ascii.eqb Bool.eqb].
    rewrite Htag, (any_contains_ingredient meal _ ing word Hing Hword Hc). reflexivity.
  - change (lower "vegan") with "vegan".
    unfold restriction_checks. cbn [String.eqb Ascii.eqb Bool.eqb].
    rewrite Htag, (any_contains_ingredient meal _ ing word Hing Hword Hc).
    now destruct (mem "vegetarian" (meal_tags meal)).
  - change (lower "gluten-free") with "gluten-free".
    unfold restriction_checks. cbn [String.eqb Ascii.eqb Bool.eqb].
    rewrite Htag, (any_contains_ingredient meal _ ing word Hing Hword Hc). reflexivity.
  - change (lower "dairy-free") with "dairy-free".
    unfold restriction_checks. cbn [String.eqb Ascii.eqb Bool.eqb].
    rewrite Htag, (any_contains_ingredient meal _ ing word Hing Hword Hc). reflexivity.
Qed.

Lemma listed_ingredient_rejected_witness :
  In "Grilled Eggplant" (get_or (ingredients eggplant_bake) [])
  /\ contains "egg" (lower "Grilled Eggplant") = true
  /\ In "egg" ["milk"; "cheese"; "butter"; "cream"; "yogurt"; "egg"]
  /\ mem "vegan" (meal_tags eggplant_bake) = false
  /\ _meets_dietary_restrictions eggplant_bake ["vegan"] = false.
Proof.
  assert (H1 : In "Grilled Eggplant" (get_or (ingredients eggplant_bake) []))
    by (simpl; auto).
  assert (H2 : contains "egg" (lower "Grilled Eggplant") = true) by (vm_compute; reflexivity).
  assert (H3 : In "egg" ["milk"; "cheese"; "butter"; "cream"; "yogurt"; "egg"])
    by (simpl; tauto).
  assert (H4 : mem "vegan" (meal_tags eggplant_bake) = false) by (vm_compute; reflexivity).
  split; [exact H1 | split; [exact H2 | split; [exact H3 | split; [exact H4 |]]]].
  exact (proj1 (proj2 (listed_ingredient_rejected eggplant_bake _ "egg" H1 H2)) H3 H4).
Defined.

Lemma contains_empty (word : string) : word <> "" -> contains word "" = false.
Proof. intros H. destruct word; [congruence | reflexivity]. Qed.

(** X7: a meal that lists no ingredients passes every restriction list
    that names none of 'vegan', 'low-carb' and 'keto', whatever its
    tags and nutrition. *)
Theorem no_ingredients_accepted (meal : Meal) (restrictions : list string) :
  get_or (ingredients meal) [] = [] ->
  (forall r : string, In r restrictions -> ~ In (lower r) ["vegan"; "low-carb"; "keto"]) ->
  _meets_dietary_restrictions meal restrictions = true.
Proof.
  intros Hnil Hrs. apply meets_forall. intros r Hr. specialize (Hrs r Hr).
  rewrite meets_single. unfold restriction_checks.
  assert (Hj : join " " (meal_ingredients meal) = "")
    by (unfold meal_ingredients; now rewrite Hnil).
  rewrite Hj.
  destruct (String.eqb_spec (lower r) "vegetarian") as [_ | _];
    [simpl; now rewrite orb_true_r |].
  destruct (String.eqb_spec (lower r) "vegan") as [E | _];
    [exfalso; apply Hrs; rewrite E; simpl; tauto |].
  destruct (String.eqb_spec (lower r) "gluten-free") as [_ | _];
    [simpl; now rewrite orb_true_r |].
  destruct (String.eqb_spec (lower r) "dairy-free") as [_ | _];
    [simpl; now rewrite orb_true_r |].
  destruct (String.eqb_spec (lower r) "low-carb") as [E | _];
    [exfalso; apply Hrs; rewrite E; simpl; tauto |].
  destruct (String.eqb_spec (lower r) "keto") as [E | _];
    [exfalso; apply Hrs; rewrite E; simpl; tauto |].
  reflexivity.
Qed.

Lemma no_ingredients_accepted_witness :
  get_or (ingredients bare_meal) [] = []
  /\ (forall r : string,
         In r ["Vegetarian"; "gluten-free"; "dairy-free"; "halal"] ->
         ~ In (lower r) ["vegan"; "low-carb"; "keto"])
  /\ _meets_dietary_restrictions bare_meal ["Vegetarian"; "gluten-free"; "dairy-free"; "halal"]
     = true.
Proof.
  assert (H1 : get_or (ingredients bare_meal) [] = []) by reflexivity.
  assert (H2 : forall r : string,
             In r ["Vegetarian"; "gluten-free"; "dairy-free"; "halal"] ->
             ~ In (lower r) ["vegan"; "low-carb"; "keto"]).
  { intros r Hr. simpl in Hr.
    repeat (destruct Hr as [<- | Hr];
            [vm_compute; intros H; repeat (destruct H as [H | H]; [discriminate H |]); exact H |]).
    contradiction. }
  split; [exact H1 | split; [exact H2 |]].
  exact (no_ingredients_accepted bare_meal _ H1 H2).
Defined.

(** ** Sums and means *)

Lemma sum_cons (x : Q) (l : list Q) : sum (x :: l) == x + sum l.
Proof. unfold sum at 1. simpl. rewrite sum_from. lra. Qed.

Lemma sum_bounds (lo hi : Q) (l : list Q) :
  (forall x : Q, In x l -> lo <= x <= hi) ->
  of_nat (List.length l) * lo <= sum l <= of_nat (List.length l) * hi.
Proof.
  induction l as [| x l IH]; intros H.
  - change (of_nat (List.length [])) with 0. change (sum []) with 0. lra.
  - rewrite sum_cons.
    assert (Hn : of_nat (List.length (x :: l)) == 1 + of_nat (List.length l)).
    { unfold of_nat. simpl List.length. rewrite Nat2Z.inj_succ, <- Z.add_1_l.
      rewrite inject_Z_plus. reflexivity. }
    rewrite Hn.
    destruct (H x (or_introl eq_refl)) as [Hlo Hhi].
    destruct IH as [IH1 IH2]; [intros y Hy; apply H; now right |].
    split; lra.
Qed.

Lemma mean_bounds (lo hi : Q) (l : list Q) :
  l <> [] -> (forall x : Q, In x l -> lo <= x <= hi) -> lo <= mean l <= hi.
Proof.
  intros Hne H. unfold mean.
  assert (Hlen : 0 < of_nat (List.length l)).
  { apply of_nat_pos. destruct l; [congruence | simpl; lia]. }
  destruct (sum_bounds lo hi l H) as [H1 H2]. split.
  - apply Qle_shift_div_l; [exact Hlen | lra].
  - apply Qle_shift_div_r; [exact Hlen | lra].
Qed.

(** ** Counters *)

Lemma add_items_app (a b : list (string * Q)) (totals : gmap string Q) :
  add_items (a ++ b) totals = add_items b (add_items a totals).
Proof. unfold add_items. apply fold_left_app. Qed.

Lemma add_items_none (items : list (string * Q)) (k : string) :
  forall totals : gmap string Q,
    add_items items totals !! k = None <->
    totals !! k = None /\ ~ In k (map fst items).
Proof.
  induction items as [| [k' v] items IH]; intros totals; simpl.
  - unfold add_items. simpl. tauto.
  - change (add_items ((k', v) :: items) totals)
      with (add_items items (counter_add totals k' v)).
    rewrite IH. unfold counter_add.
    destruct (decide (k' = k)) as [-> | Hne].
    + rewrite lookup_insert_eq. split; [intros [H _]; discriminate H | tauto].
    + rewrite lookup_insert_ne by exact Hne. tauto.
Qed.

Lemma items_total_cons (k k' : string) (v : Q) (items : list (string * Q)) :
  items_total k ((k', v) :: items)
  == (if String.eqb k' k then v else 0) + items_total k items.
Proof.
  unfold items_total. simpl. destruct (String.eqb k' k); simpl.
  - apply sum_cons.
  - lra.
Qed.

Lemma add_items_total (items : list (string * Q)) (k : string) :
  forall totals : gmap string Q,
    get_or (add_items items totals !! k) 0 == get_or (totals !! k) 0 + items_total k items.
Proof.
  induction items as [| [k' v] items IH]; intros totals.
  - unfold add_items, items_total, sum. simpl. lra.
  - change (add_items ((k', v) :: items) totals)
      with (add_items items (counter_add totals k' v)).
    rewrite IH, items_total_cons. unfold counter_add.
    destruct (String.eqb_spec k' k) as [-> | Hne].
    + rewrite lookup_insert_eq. simpl. lra.
    + rewrite lookup_insert_ne by exact Hne. lra.
Qed.

(** ** Preference learner *)

Lemma ingredient_fold (rating_ : Q) (ings : list string) :
  forall acc : gmap string Q,
    fold_left (fun acc ingredient => counter_add acc (lower ingredient) rating_) ings acc
    = add_items (map (fun ing => (lower ing, rating_)) ings) acc.
Proof.
  induction ings as [| ing ings IH]; intros acc; [reflexivity |].
  simpl. rewrite IH. reflexivity.
Qed.

Lemma learn_fold (meal_history : list Meal) :
  forall st : LearnState,
    let st' := fold_left learn_step meal_history st in
    cuisine_scores st' = add_items (cuisine_items meal_history) (cuisine_scores st)
    /\ ingredient_scores st' = add_items (ingredient_items meal_history) (ingredient_scores st)
    /\ prep_time_preferences st'
       = prep_time_preferences st ++ history_prep_times meal_history
    /\ difficulty_preferences st'
       = difficulty_preferences st ++ history_difficulties meal_history.
Proof.
  induction meal_history as [| meal rest IH]; intros st; simpl.
  - now rewrite !app_nil_r.
  - destruct (IH (learn_step st meal)) as (Hc & Hi & Hp & Hd).
    rewrite Hc, Hi, Hp, Hd. cbn [learn_step cuisine_scores ingredient_scores
                                  prep_time_preferences difficulty_preferences].
    rewrite ingredient_fold, add_items_app, <- !app_assoc. auto.
Qed.

(** The profile learned from a non-empty history, field by field. *)
Lemma analyze_user_preferences_fields (meal_history : list Meal) :
  meal_history <> [] ->
  analyze_user_preferences meal_history
  = Ok {| preferred_cuisines := Some (add_items (cuisine_items meal_history) ∅);
          preferred_ingredients := Some (add_items (ingredient_items meal_history) ∅);
          avg_prep_time := Some (NpFloat (mean (history_prep_times meal_history)));
          preferred_difficulty := Some (mean (history_difficulties meal_history));
          variety_score :=
            Some (of_nat (size (list_to_set (names_of meal_history) : gset string))
                  / of_nat (List.length meal_history)) |}.
Proof.
  intros Hne. destruct meal_history as [| meal rest]; [congruence |].
  unfold analyze_user_preferences.
  set (h := meal :: rest).
  assert (Hlen : (0 < List.length h)%nat) by (simpl; lia).
  apply Nat.ltb_lt in Hlen as Hb. rewrite Hb.
  rewrite py_div_ok by (apply of_nat_pos in Hlen; lra).
  cbn [bind].
  destruct (learn_fold h (mkLearn ∅ ∅ [] [])) as (Hc & Hi & Hp & Hd).
  rewrite Hc, Hi, Hp, Hd. reflexivity.
Qed.

Lemma size_names_cons (x : string) (l : list string) :
  size (list_to_set (x :: l) : gset string)
  = if decide (x ∈ l) then size (list_to_set l : gset string)
    else S (size (list_to_set l : gset string)).
Proof.
  rewrite list_to_set_cons. destruct (decide (x ∈ l)) as [Hin | Hout].
  - f_equal. apply subseteq_union_1_L, singleton_subseteq_l, elem_of_list_to_set, Hin.
  - rewrite size_union; [now rewrite size_singleton |].
    apply disjoint_singleton_l. now rewrite elem_of_list_to_set.
Qed.

Lemma size_names_le (l : list string) :
  (size (list_to_set l : gset string) <= List.length l)%nat.
Proof.
  induction l as [| x l IH]; [rewrite list_to_set_nil, size_empty; simpl; lia |].
  rewrite size_names_cons. simpl. destruct (decide (x ∈ l)); lia.
Qed.

Lemma size_names_nodup (l : list string) :
  size (list_to_set l : gset string) = List.length l <-> NoDup l.
Proof.
  induction l as [| x l IH].
  - split; [constructor | now rewrite list_to_set_nil, size_empty].
  - rewrite size_names_cons, NoDup_cons. simpl.
    pose proof (size_names_le l). destruct (decide (x ∈ l)) as [Hin | Hout].
    + split; [lia | tauto].
    + split; [intros H'; split; [exact Hout | apply IH; lia] | intros [_ Hnd]].
      apply IH in Hnd. lia.
Qed.

Lemma size_names_pos (l : list string) :
  l <> [] -> (0 < size (list_to_set l : gset string))%nat.
Proof.
  destruct l as [| x l]; [congruence |]. intros _.
  rewrite size_names_cons. destruct (decide (x ∈ l)) as [Hin | Hout]; [| lia].
  destruct (size (list_to_set l : gset string)) eqn:E; [| lia].
  apply size_empty_inv in E. set_solver.
Qed.

Lemma of_nat_inj (n m : nat) : of_nat n == of_nat m -> n = m.
Proof. unfold of_nat, Qeq. simpl. lia. Qed.

Lemma of_nat_le (n m : nat) : (n <= m)%nat -> of_nat n <= of_nat m.
Proof. intros H. unfold of_nat. rewrite <- Zle_Qle. lia. Qed.

(** X8: on a non-empty history the learner returns a variety score in
    (0, 1], the share of distinct meal names; it is 1 exactly when no
    name occurs twice. *)
Theorem variety_score_range (meal_history : list Meal) :
  meal_history <> [] ->
  exists (user_prefs : Prefs) (v : Q),
    analyze_user_preferences meal_history = Ok user_prefs
    /\ variety_score user_prefs = Some v
    /\ 0 < v <= 1
    /\ (v == 1 <-> NoDup (names_of meal_history)).
Proof.
  intros Hne. rewrite (analyze_user_preferences_fields _ Hne).
  eexists _, _. split; [reflexivity |]. split; [reflexivity |].
  set (names := names_of meal_history).
  assert (Hlen : List.length meal_history = List.length names)
    by (unfold names, names_of; now rewrite length_map).
  rewrite Hlen.
  assert (Hnames : names <> []) by (intros E; rewrite E in Hlen; destruct meal_history; [congruence | discriminate]).
  pose proof (size_names_pos names Hnames) as Hpos.
  pose proof (size_names_le names) as Hle.
  assert (Hn : 0 < of_nat (List.length names)) by (apply of_nat_pos; lia).
  split; [split |].
  - apply Qlt_shift_div_l; [exact Hn |]. rewrite Qmult_0_l. now apply of_nat_pos.
  - apply Qle_shift_div_r; [exact Hn |]. rewrite Qmult_1_l. now apply of_nat_le.
  - rewrite <- size_names_nodup. split.
    + intros H. apply of_nat_inj.
      rewrite <- (Qmult_div_r (of_nat (size (list_to_set names : gset string)))
                              (of_nat (List.length names))) by lra.
      rewrite H. lra.
    + intros ->. field. lra.
Qed.

Lemma variety_score_range_witness :
  [steak; oatmeal; steak] <> []
  /\ exists (user_prefs : Prefs) (v : Q),
      analyze_user_preferences [steak; oatmeal; steak] = Ok user_prefs
      /\ variety_score user_prefs = Some v
      /\ 0 < v <= 1
      /\ (v == 1 <-> NoDup (names_of [steak; oatmeal; steak])).
Proof.
  assert (H : [steak; oatmeal; steak] <> []) by discriminate.
  split; [exact H | exact (variety_score_range _ H)].
Defined.

Lemma difficulty_value_range (d : string) :
  1 <= get_or (dict_get difficulty_mapping d) 2 <= 3.
Proof.
  unfold difficulty_mapping. simpl.
  repeat match goal with
         | |- context [String.eqb d ?k] => destruct (String.eqb d k)
         end; simpl; lra.
Qed.

(** X9: on a non-empty history the preferred difficulty lies in [1, 3]
    (an unknown difficulty counts as 2), and the preferred prep time is
    a numpy float that lies within any bounds that hold for every
    entry's prep time (30 where missing). *)
Theorem learned_averages_range (meal_history : list Meal) :
  meal_history <> [] ->
  exists (user_prefs : Prefs) (t d : Q),
    analyze_user_preferences meal_history = Ok user_prefs
    /\ avg_prep_time user_prefs = Some (NpFloat t)
    /\ preferred_difficulty user_prefs = Some d
    /\ 1 <= d <= 3
    /\ forall lo hi : Q,
        (forall meal : Meal,
            In meal meal_history -> lo <= get_or (prepTime meal) 30 <= hi) ->
        lo <= t <= hi.
Proof.
  intros Hne. rewrite (analyze_user_preferences_fields _ Hne).
  eexists _, _, _. split; [reflexivity |]. split; [reflexivity |].
  split; [reflexivity |]. split.
  - apply mean_bounds.
    + unfold history_difficulties. destruct meal_history; [congruence | discriminate].
    + intros x Hx. unfold history_difficulties in Hx.
      apply in_map_iff in Hx as (meal & <- & _). apply difficulty_value_range.
  - intros lo hi H. apply mean_bounds.
    + unfold history_prep_times. destruct meal_history; [congruence | discriminate].
    + intros x Hx. unfold history_prep_times in Hx.
      apply in_map_iff in Hx as (meal & <- & Hm). now apply H.
Qed.

Lemma learned_averages_range_witness :
  [steak; oatmeal; tofu] <> []
  /\ exists (user_prefs : Prefs) (t d : Q),
      analyze_user_preferences [steak; oatmeal; tofu] = Ok user_prefs
      /\ avg_prep_time user_prefs = Some (NpFloat t)
      /\ preferred_difficulty user_prefs = Some d
      /\ 1 <= d <= 3
      /\ forall lo hi : Q,
          (forall meal : Meal,
              In meal [steak; oatmeal; tofu] -> lo <= get_or (prepTime meal) 30 <= hi) ->
          lo <= t <= hi.
Proof.
  assert (H : [steak; oatmeal; tofu] <> []) by discriminate.
  split; [exact H | exact (learned_averages_range _ H)].
Defined.

(** X10: the learned cuisine map has an entry exactly for the cuisines
    of the history ('unknown' where missing), and the entry is the sum
    of the ratings (3 where missing) of the meals of that cuisine. *)
Theorem learned_cuisine_totals (meal_history : list Meal) :
  meal_history <> [] ->
  exists (user_prefs : Prefs) (scores : gmap string Q),
    analyze_user_preferences meal_history = Ok user_prefs
    /\ preferred_cuisines user_prefs = Some scores
    /\ forall c : string,
        (scores !! c = None <->
         forall meal : Meal, In meal meal_history -> get_or (cuisine meal) "unknown" <> c)
        /\ get_or (scores !! c) 0 == items_total c (cuisine_items meal_history).
Proof.
  intros Hne. rewrite (analyze_user_preferences_fields _ Hne).
  eexists _, _. split; [reflexivity |]. split; [reflexivity |].
  intros c. split.
  - rewrite add_items_none, lookup_empty. unfold cuisine_items. rewrite map_map. simpl.
    split.
    + intros [_ H] meal Hm Hc. apply H. apply in_map_iff. eauto.
    + intros H. split; [reflexivity |]. intros Hin.
      apply in_map_iff in Hin as (meal & Hc & Hm). exact (H meal Hm Hc).
  - rewrite add_items_total, lookup_empty. simpl. lra.
Qed.

Lemma learned_cuisine_totals_witness :
  [steak; oatmeal; steak] <> []
  /\ exists (user_prefs : Prefs) (scores : gmap string Q),
      analyze_user_preferences [steak; oatmeal; steak] = Ok user_prefs
      /\ preferred_cuisines user_prefs = Some scores
      /\ get_or (scores !! "american") 0
         == items_total "american" (cuisine_items [steak; oatmeal; steak]).
Proof.
  assert (H : [steak; oatmeal; steak] <> []) by discriminate.
  split; [exact H |].
  destruct (learned_cuisine_totals _ H) as (p & scores & Hp & Hs & Hall).
  exists p, scores. split; [exact Hp | split; [exact Hs | exact (proj2 (Hall "american"))]].
Defined.

(** X11: the learned ingredient map is keyed by lowercased ingredient
    names: it has an entry exactly for the lowercase forms of the
    ingredients of the history, and the entry is the sum of the ratings
    of the meals over every occurrence, whatever its case. *)
Theorem learned_ingredient_totals (meal_history : list Meal) :
  meal_history <> [] ->
  exists (user_prefs : Prefs) (scores : gmap string Q),
    analyze_user_preferences meal_history = Ok user_prefs
    /\ preferred_ingredients user_prefs = Some scores
    /\ forall k : string,
        (is_Some (scores !! k) <->
         exists (meal : Meal) (ing : string),
           In meal meal_history
           /\ In ing (get_or (ingredients meal) [])
           /\ lower ing = k)
        /\ (is_Some (scores !! k) -> lower k = k)
        /\ get_or (scores !! k) 0 == items_total k (ingredient_items meal_history).
Proof.
  intros Hne. rewrite (analyze_user_preferences_fields _ Hne).
  eexists _, _. split; [reflexivity |]. split; [reflexivity |].
  intros k.
  assert (Hdom : is_Some (add_items (ingredient_items meal_history) ∅ !! k) <->
                 exists (meal : Meal) (ing : string),
                   In meal meal_history
                   /\ In ing (get_or (ingredients meal) [])
                   /\ lower ing = k).
  { rewrite <- not_eq_None_Some, add_items_none, lookup_empty.
    unfold ingredient_items. split.
    - intros H.
      destruct (in_dec string_dec k
                  (map fst (flat_map
                              (fun meal => map (fun ing => (lower ing, get_or (rating meal) 3))
                                               (get_or (ingredients meal) []))
                              meal_history))) as [Hin | Hout]; [| tauto].
      apply in_map_iff in Hin as ([k' v] & Hk & Hin). simpl in Hk. subst k'.
      apply in_flat_map in Hin as (meal & Hm & Hin).
      apply in_map_iff in Hin as (ing & Heq & Hing). injection Heq as Hl _.
      eauto.
    - intros (meal & ing & Hm & Hing & Hl) [_ Hout]. apply Hout.
      apply in_map_iff. exists (k, get_or (rating meal) 3). split; [reflexivity |].
      apply in_flat_map. exists meal. split; [exact Hm |].
      apply in_map_iff. exists ing. split; [now rewrite Hl | exact Hing]. }
  split; [exact Hdom | split].
  - intros H. apply Hdom in H as (meal & ing & _ & _ & <-). apply lower_idem.
  - rewrite add_items_total, lookup_empty. simpl. lra.
Qed.

Lemma learned_ingredient_totals_witness :
  [steak; oatmeal] <> []
  /\ exists (user_prefs : Prefs) (scores : gmap string Q),
      analyze_user_preferences [steak; oatmeal] = Ok user_prefs
      /\ preferred_ingredients user_prefs = Some scores
      /\ is_Some (scores !! "beef").
Proof.
  assert (H : [steak; oatmeal] <> []) by discriminate.
  split; [exact H |].
  destruct (learned_ingredient_totals _ H) as (p & scores & Hp & Hs & Hall).
  exists p, scores. split; [exact Hp | split; [exact Hs |]].
  apply (proj1 (Hall "beef")). exists steak, "Beef".
  split; [simpl; auto | split; [simpl; auto | reflexivity]].
Defined.

(** ** Meal scorer *)

Lemma py_max_mono (a b : Q) : a <= b -> py_max 0 a <= py_max 0 b.
Proof.
  intros H. unfold py_max.
  destruct (Qltb 0 a) eqn:Ea, (Qltb 0 b) eqn:Eb;
    try apply Qltb_lt in Ea; try apply Qltb_ge in Ea;
    try apply Qltb_lt in Eb; try apply Qltb_ge in Eb; lra.
Qed.

Lemma py_min_mono (a b : Q) : a <= b -> py_min 1 a <= py_min 1 b.
Proof.
  intros H. unfold py_min.
  destruct (Qltb a 1) eqn:Ea, (Qltb b 1) eqn:Eb;
    try apply Qltb_lt in Ea; try apply Qltb_ge in Ea;
    try apply Qltb_lt in Eb; try apply Qltb_ge in Eb; lra.
Qed.

(** The score before the variety term does not depend on the recency
    window. *)
Lemma raw_meal_score_split (meal : Meal) (user_prefs : Prefs) :
  ~ python_zero (get_or (avg_prep_time user_prefs) (PyNum 30)) ->
  exists base : Q,
    forall recent_meals : list string,
      raw_meal_score meal user_prefs recent_meals
      = if mem (get_or (name meal) "") recent_meals
        then let* deduction := variety_deduction (get_or (name meal) "") recent_meals in
             Ok (base - deduction)
        else Ok (base + 0.15).
Proof.
  intros Hnz. unfold raw_meal_score, time_diff_of.
  destruct (num_div_total (Qabs (get_or (prepTime meal) 30
                                 - value (get_or (avg_prep_time user_prefs) (PyNum 30))))
                          _ Hnz) as [q ->].
  cbn [bind]. eexists. intros recent_meals. reflexivity.
Qed.

Lemma python_zero_dec (n : number) : {python_zero n} + {~ python_zero n}.
Proof.
  destruct n as [d | d]; simpl; [apply Qeq_dec | right; tauto].
Qed.

Lemma variety_deduction_pos (x : string) (l : list string) :
  mem x l = true -> exists d : Q, variety_deduction x l = Ok d /\ 0 < d.
Proof.
  intros H. destruct (mem_index _ _ H) as [i Hi].
  rewrite (variety_deduction_eq _ _ _ Hi). eexists. split; [reflexivity |].
  pose proof (ratio_lt_1 i (List.length l) (index_lt _ _ _ Hi)). lra.
Qed.

(** X12: the scorer raises nothing but [ZeroDivisionError], and raises
    it exactly when the preferred prep time (30 where missing) is a
    Python number equal to zero; a numpy float zero raises nothing.  On
    a profile returned by the learner the scorer therefore always
    returns a score, and the score lies in [0, 1]. *)
Theorem calculate_meal_score_raises_iff
        (meal : Meal) (user_prefs : Prefs) (recent_meals : list string) :
  (forall e : exn,
      calculate_meal_score meal user_prefs recent_meals = Raise e <->
      e = ZeroDivisionError
      /\ python_zero (get_or (avg_prep_time user_prefs) (PyNum 30)))
  /\ (forall meal_history : list Meal,
         analyze_user_preferences meal_history = Ok user_prefs ->
         exists s : Q,
           calculate_meal_score meal user_prefs recent_meals = Ok s /\ 0 <= s <= 1).
Proof.
  split.
  - intros e. split.
    + intros H.
      destruct (python_zero_dec (get_or (avg_prep_time user_prefs) (PyNum 30))) as [Hz | Hnz].
      * rewrite (calculate_meal_score_zero_time _ _ _ Hz) in H.
        split; [congruence | exact Hz].
      * destruct (calculate_meal_score_ok meal user_prefs recent_meals Hnz) as (s & Hs & _).
        rewrite Hs in H. discriminate H.
    + intros [-> Hz]. now apply calculate_meal_score_zero_time.
  - intros meal_history Hp.
    apply calculate_meal_score_ok, (learned_not_python_zero meal_history), Hp.
Qed.

Lemma calculate_meal_score_raises_iff_witness :
  exists user_prefs : Prefs,
    analyze_user_preferences [water] = Ok user_prefs
    /\ exists s : Q,
        calculate_meal_score water user_prefs ["Water"] = Ok s /\ 0 <= s <= 1.
Proof.
  destruct (analyze_user_preferences_total [water]) as (user_prefs & Hp & _).
  exists user_prefs. split; [exact Hp |].
  exact (proj2 (calculate_meal_score_raises_iff water user_prefs ["Water"]) [water] Hp).
Defined.

(** X13: when the preferred prep time is not a Python zero, a meal whose
    name is not in the recency window gets a score that does not depend
    on the window, and that score is at least the score the same meal
    gets with any window that contains its name. *)
Theorem recent_meal_never_scores_higher (meal : Meal) (user_prefs : Prefs) :
  ~ python_zero (get_or (avg_prep_time user_prefs) (PyNum 30)) ->
  exists s' : Q,
    forall recent_meals : list string,
      (mem (get_or (name meal) "") recent_meals = false ->
       calculate_meal_score meal user_prefs recent_meals = Ok s')
      /\ (mem (get_or (name meal) "") recent_meals = true ->
          exists s : Q,
            calculate_meal_score meal user_prefs recent_meals = Ok s /\ s <= s').
Proof.
  intros Hnz.
  destruct (raw_meal_score_split meal user_prefs Hnz) as [base Hraw].
  eexists. intros recent_meals.
  unfold calculate_meal_score. rewrite Hraw.
  split; intros Hin; rewrite Hin.
  - cbn [bind]. reflexivity.
  - destruct (variety_deduction_pos _ _ Hin) as (d & -> & Hd). cbn [bind].
    eexists. split; [reflexivity |].
    apply py_min_mono, py_max_mono. lra.
Qed.

Lemma recent_meal_never_scores_higher_witness :
  exists user_prefs : Prefs,
    analyze_user_preferences [water; water] = Ok user_prefs
    /\ ~ python_zero (get_or (avg_prep_time user_prefs) (PyNum 30))
    /\ exists s' : Q,
        calculate_meal_score tofu user_prefs ["Water"; "Water"] = Ok s'
        /\ exists s : Q,
            calculate_meal_score tofu user_prefs ["Water"; "Tofu Stir Fry"] = Ok s
            /\ s <= s'.
Proof.
  destruct (analyze_user_preferences_total [water; water]) as (user_prefs & Hp & _).
  exists user_prefs. split; [exact Hp |].
  pose proof (learned_not_python_zero _ _ Hp) as Hnz.
  split; [exact Hnz |].
  destruct (recent_meal_never_scores_higher tofu user_prefs Hnz) as [s' Hs'].
  exists s'. split.
  - apply (proj1 (Hs' ["Water"; "Water"])). vm_compute. reflexivity.
  - apply (proj2 (Hs' ["Water"; "Tofu Stir Fry"])). vm_compute. reflexivity.
Defined.

(** ** Sorting: order and stability *)

Section SortOrder.

Context {A : Type} (key : A -> Q).

(** A list already in descending order is left as it is. *)
Lemma sort_desc_id (l : list A) :
  Sorted (fun a b => key b <= key a) l -> sort_desc key l = l.
Proof.
  induction l as [| x l IH]; intros Hs; [reflexivity |].
  apply Sorted_inv in Hs as [Hs Hhd]. simpl. rewrite (IH Hs).
  destruct l as [| y l]; [reflexivity |]. simpl.
  apply HdRel_inv in Hhd. apply Qltb_ge in Hhd. now rewrite Hhd.
Qed.

Lemma sorted_constant (c : Q) (l : list A) :
  (forall x : A, key x == c) -> Sorted (fun a b => key b <= key a) l.
Proof.
  intros H. induction l as [| x l IH]; constructor; [exact IH |].
  destruct l as [| y l]; constructor. rewrite !H. lra.
Qed.

Lemma insert_desc_filter (q : Q) (x : A) (l : list A) :
  List.filter (fun y => Qeq_bool (key y) q) (insert_desc key x l)
  = List.filter (fun y => Qeq_bool (key y) q) (x :: l).
Proof.
  induction l as [| y l IH]; [reflexivity |].
  cbn [insert_desc]. destruct (Qltb (key x) (key y)) eqn:E; [| reflexivity].
  apply Qltb_lt in E. cbn [List.filter] in *. rewrite IH.
  destruct (Qeq_bool (key x) q) eqn:Ex; [| reflexivity].
  destruct (Qeq_bool (key y) q) eqn:Ey; [| reflexivity].
  apply Qeq_bool_iff in Ex. apply Qeq_bool_iff in Ey. lra.
Qed.

(** Elements with equal keys keep their relative order. *)
Lemma sort_desc_stable (q : Q) (l : list A) :
  List.filter (fun y => Qeq_bool (key y) q) (sort_desc key l)
  = List.filter (fun y => Qeq_bool (key y) q) l.
Proof.
  induction l as [| x l IH]; [reflexivity |].
  cbn [sort_desc fold_right]. fold (sort_desc key l).
  rewrite insert_desc_filter. cbn [List.filter]. now rewrite IH.
Qed.

Lemma insert_desc_pair (x : A) (l : list A) :
  insert_desc snd (x, key x) (map (fun y => (y, key y)) l)
  = map (fun y => (y, key y)) (insert_desc key x l).
Proof.
  induction l as [| y l IH]; [reflexivity |].
  simpl. destruct (Qltb (key x) (key y)); simpl; [now rewrite IH | reflexivity].
Qed.

(** Sorting the pairs [(x, key x)] by their second component sorts the
    first components by [key]. *)
Lemma sort_desc_pair (l : list A) :
  map fst (sort_desc snd (map (fun y => (y, key y)) l)) = sort_desc key l.
Proof.
  assert (H : sort_desc snd (map (fun y => (y, key y)) l)
              = map (fun y => (y, key y)) (sort_desc key l)).
  { induction l as [| x l IH]; [reflexivity |].
    simpl. rewrite IH. apply insert_desc_pair. }
  rewrite H, map_map. simpl. apply map_id.
Qed.

End SortOrder.

Lemma with_scores_map {A : Type} (f : A -> result Q) (g : A -> Q) (l : list A) :
  (forall x : A, f x = Ok (g x)) ->
  with_scores f l = Ok (map (fun x => (x, g x)) l).
Proof.
  intros H. unfold with_scores.
  induction l as [| x l IH]; [reflexivity |].
  simpl. rewrite H. cbn [bind]. rewrite IH. reflexivity.
Qed.

(** ** Nutrition balancer: the order of the result *)

Lemma nutrition_priority_score_of (nutrition_gaps : list (string * Q)) (meal : Meal) :
  nutrition_priority_score nutrition_gaps meal = Ok (priority_of nutrition_gaps meal).
Proof.
  unfold priority_of.
  destruct (nutrition_priority_loop_total (get_or (nutrition meal) ∅) nutrition_gaps 0)
    as [s Hs].
  unfold nutrition_priority_score. now rewrite Hs.
Qed.

(** From 7 meals on the balancer is the stable descending sort by
    priority score. *)
Lemma balance_nutrition_weekly_sort (meals : list Meal) :
  (7 <= List.length meals)%nat ->
  balance_nutrition_weekly meals
  = Ok (sort_desc (priority_of (nutrition_gaps_of (sum_nutrition meals))) meals).
Proof.
  intros H. unfold balance_nutrition_weekly.
  apply Nat.ltb_ge in H. rewrite H.
  rewrite (with_scores_map _ _ _ (nutrition_priority_score_of _)). cbn [bind].
  now rewrite sort_desc_pair.
Qed.

(** X14: from 7 meals on, the balanced plan is in descending order of
    the priority score computed against the gaps of the plan, and meals
    with equal priority keep their original relative order. *)
Theorem balance_nutrition_weekly_sorted (meals : list Meal) :
  (7 <= List.length meals)%nat ->
  let priority := priority_of (nutrition_gaps_of (sum_nutrition meals)) in
  exists out : list Meal,
    balance_nutrition_weekly meals = Ok out
    /\ (forall meal : Meal,
           nutrition_priority_score (nutrition_gaps_of (sum_nutrition meals)) meal
           = Ok (priority meal))
    /\ Sorted (fun a b => priority b <= priority a) out
    /\ forall q : Q,
        List.filter (fun meal => Qeq_bool (priority meal) q) out
        = List.filter (fun meal => Qeq_bool (priority meal) q) meals.
Proof.
  intros H priority. rewrite (balance_nutrition_weekly_sort _ H).
  eexists. split; [reflexivity |]. split; [| split].
  - intros meal. apply nutrition_priority_score_of.
  - apply sort_desc_sorted.
  - intros q. apply sort_desc_stable.
Qed.

Lemma balance_nutrition_weekly_sorted_witness :
  (7 <= List.length week)%nat
  /\ exists out : list Meal,
      balance_nutrition_weekly week = Ok out
      /\ Sorted (fun a b =>
                   priority_of (nutrition_gaps_of (sum_nutrition week)) b
                   <= priority_of (nutrition_gaps_of (sum_nutrition week)) a) out.
Proof.
  assert (H : (7 <= List.length week)%nat) by (simpl; lia).
  split; [exact H |].
  destruct (balance_nutrition_weekly_sorted week H) as (out & Hb & _ & Hs & _).
  exists out. split; [exact Hb | exact Hs].
Defined.

Lemma nutrition_priority_loop_no_gap (nutrition_ : gmap string Q)
      (nutrition_gaps : list (string * Q)) :
  Forall (fun item => Qltb 0 (snd item) = false) nutrition_gaps ->
  forall score : Q, nutrition_priority_loop nutrition_ nutrition_gaps score = Ok score.
Proof.
  induction 1 as [| [nutrient gap] rest Hgap _ IH]; intros score; [reflexivity |].
  simpl in *. rewrite Hgap. apply IH.
Qed.

(** X15: a plan that is already in descending order of priority is
    returned unchanged; in particular a plan whose totals reach every
    weekly target is returned in its original order, whatever its
    length. *)
Theorem balance_nutrition_weekly_unchanged (meals : list Meal) :
  (Sorted (fun a b =>
             priority_of (nutrition_gaps_of (sum_nutrition meals)) b
             <= priority_of (nutrition_gaps_of (sum_nutrition meals)) a) meals ->
   balance_nutrition_weekly meals = Ok meals)
  /\ ((forall (nutrient : string) (target : Q),
          In (nutrient, target) weekly_targets -> target <= plan_total nutrient meals) ->
      balance_nutrition_weekly meals = Ok meals).
Proof.
  assert (Hsorted : Sorted (fun a b =>
                              priority_of (nutrition_gaps_of (sum_nutrition meals)) b
                              <= priority_of (nutrition_gaps_of (sum_nutrition meals)) a)
                           meals ->
                    balance_nutrition_weekly meals = Ok meals).
  { intros Hs. destruct (Nat.lt_ge_cases (List.length meals) 7) as [Hlt | Hge].
    - unfold balance_nutrition_weekly. apply Nat.ltb_lt in Hlt. now rewrite Hlt.
    - rewrite (balance_nutrition_weekly_sort _ Hge). f_equal. now apply sort_desc_id. }
  split; [exact Hsorted |].
  intros Hmet. apply Hsorted.
  assert (Hzero : forall meal : Meal,
             priority_of (nutrition_gaps_of (sum_nutrition meals)) meal = 0).
  { intros meal. unfold priority_of, nutrition_priority_score.
    rewrite nutrition_priority_loop_no_gap; [reflexivity |].
    unfold nutrition_gaps_of. apply List.Forall_forall. intros item Hitem.
    apply in_map_iff in Hitem as ([nutrient target] & <- & Hin). cbn [fst snd].
    specialize (Hmet nutrient target Hin).
    pose proof (sum_nutrition_total nutrient meals) as Htot.
    unfold py_max.
    destruct (Qltb 0 (target - get_or (sum_nutrition meals !! nutrient) 0)) eqn:E.
    - apply Qltb_lt in E. lra.
    - reflexivity. }
  apply sorted_constant with (c := 0). intros meal. now rewrite Hzero.
Qed.

Lemma balance_nutrition_weekly_unchanged_witness :
  (forall (nutrient : string) (target : Q),
      In (nutrient, target) weekly_targets ->
      target <= plan_total nutrient [tofu; feast; steak; oatmeal; tofu; steak; oatmeal; tofu])
  /\ balance_nutrition_weekly [tofu; feast; steak; oatmeal; tofu; steak; oatmeal; tofu]
     = Ok [tofu; feast; steak; oatmeal; tofu; steak; oatmeal; tofu].
Proof.
  assert (H : forall (nutrient : string) (target : Q),
             In (nutrient, target) weekly_targets ->
             target
             <= plan_total nutrient [tofu; feast; steak; oatmeal; tofu; steak; oatmeal; tofu]).
  { intros nutrient target Hin. simpl in Hin.
    repeat (destruct Hin as [Hin | Hin];
            [injection Hin as <- <-; vm_compute; discriminate |]).
    contradiction. }
  split; [exact H |].
  exact (proj2 (balance_nutrition_weekly_unchanged _) H).
Defined.

(** ** Weighted random choice: draws beyond the total *)

Lemma walk_none_intro (weights : list Q) :
  forall (i0 : nat) (c u : Q),
    (forall k : nat, (k < List.length weights)%nat ->
                     fold_left Qplus (firstn (S k) weights) c < u) ->
    walk weights i0 c u = None.
Proof.
  induction weights as [| w ws IH]; intros i0 c u H; [reflexivity |].
  simpl. pose proof (H 0%nat ltac:(simpl; lia)) as H0. simpl in H0.
  destruct (Qle_bool u (c + w)) eqn:E.
  - apply Qle_bool_iff in E. lra.
  - apply IH. intros k Hk. apply (H (S k)). simpl. lia.
Qed.

(** X16: when the draw exceeds every cumulative weight the loop runs to
    its end and the choice falls back to the last item; with no items
    it returns [None]. *)
Theorem weighted_pick_fallback {T : Type} (items : list T) (weights : list Q) (u : Q) :
  (forall k : nat, (k < List.length weights)%nat -> cumulative weights (S k) < u) ->
  (items = [] -> weighted_pick items weights u = Ok None)
  /\ (forall (front : list T) (item : T),
         items = front ++ [item] -> weighted_pick items weights u = Ok (Some item)).
Proof.
  intros H. unfold weighted_pick. rewrite (walk_none_intro weights 0 0 u H).
  split.
  - intros ->. reflexivity.
  - intros front item ->. rewrite map_app. cbn [map]. now rewrite last_last.
Qed.

Lemma weighted_pick_fallback_witness :
  (forall k : nat, (k < List.length [0.1%Q; 0.6%Q])%nat -> cumulative [0.1; 0.6] (S k) < 1)
  /\ weighted_pick [tofu; steak] [0.1; 0.6] 1 = Ok (Some steak).
Proof.
  assert (H : forall k : nat,
             (k < List.length [0.1%Q; 0.6%Q])%nat -> cumulative [0.1; 0.6] (S k) < 1).
  { intros k Hk. simpl in Hk.
    destruct k as [| [| k]]; [vm_compute; reflexivity | vm_compute; reflexivity | lia]. }
  split; [exact H |].
  exact (proj2 (weighted_pick_fallback [tofu; steak] [0.1; 0.6] 1 H) [tofu] steak eq_refl).
Defined.

(** ** Plan generator: no repeats before the catalog is exhausted *)

Lemma names_of_app (a b : list Meal) : names_of (a ++ b) = names_of a ++ names_of b.
Proof. unfold names_of. apply map_app. Qed.

(** While fewer meals are selected than the scored list has distinct
    names, a day selects a meal whose name is not used yet and the used
    set is not reset. *)
Lemma day_step_fresh (rnd : nat -> Q) (meal_scores : list (Meal * Q)) (st : GenState) :
  fresh_state st ->
  (List.length (selected_meals st) < distinct_names (map fst meal_scores))%nat ->
  exists st' : GenState,
    day_step rnd meal_scores st = Ok st'
    /\ fresh_state st'
    /\ List.length (selected_meals st') = S (List.length (selected_meals st)).
Proof.
  intros [Hnd Hused] Hlt. unfold day_step.
  set (unused := List.filter _ meal_scores).
  destruct unused as [| c0 cs] eqn:Eu.
  - exfalso.
    assert (Hall : forall c, In c meal_scores -> name_of (fst c) ∈ used_meals st).
    { intros c Hc.
      destruct (bool_decide (name_of (fst c) ∈ used_meals st)) eqn:E.
      - now apply bool_decide_eq_true in E.
      - assert (Hin : In c unused)
          by (unfold unused; apply filter_In; split; [exact Hc | now rewrite E]).
        rewrite Eu in Hin. contradiction. }
    assert (Hsub : (list_to_set (names_of (map fst meal_scores)) : gset string)
                   ⊆ used_meals st).
    { intros x Hx. apply elem_of_list_to_set, list_elem_of_In in Hx.
      unfold names_of in Hx. rewrite map_map in Hx.
      apply in_map_iff in Hx as (c & <- & Hc). now apply Hall. }
    apply subseteq_size in Hsub. unfold distinct_names in Hlt.
    rewrite Hused, (size_list_to_set _ Hnd) in Hsub.
    unfold names_of in Hsub at 2. rewrite length_map in Hsub. lia.
  - assert (Hne : c0 :: cs <> []) by discriminate.
    destruct (weighted_random_choice_member (rnd (draws st)) (c0 :: cs) Hne)
      as (c & Hc & Hin).
    rewrite Hc. cbn [bind]. eexists. split; [reflexivity |].
    assert (Hfresh : name_of (fst c) ∉ used_meals st).
    { rewrite <- Eu in Hin. unfold unused in Hin. apply filter_In in Hin as [_ Hb].
      apply negb_true_iff, bool_decide_eq_false in Hb. exact Hb. }
    unfold fresh_state. cbn [selected_meals used_meals]. split; [split |].
    + rewrite names_of_app. apply NoDup_app. split; [exact Hnd |].
      split; [| apply NoDup_singleton].
      intros x Hx Hx'. apply list_elem_of_singleton in Hx'. subst x.
      apply Hfresh. rewrite Hused. now apply elem_of_list_to_set.
    + rewrite names_of_app, list_to_set_app_L, Hused.
      cbn [names_of map]. rewrite list_to_set_singleton_L.
      apply leibniz_equiv. apply union_comm.
    + rewrite length_app. simpl. lia.
Qed.

Lemma days_loop_fresh (rnd : nat -> Q) (meal_scores : list (Meal * Q)) :
  forall (days : nat) (st : GenState),
    fresh_state st ->
    (List.length (selected_meals st) + days <= distinct_names (map fst meal_scores))%nat ->
    exists st' : GenState,
      days_loop rnd meal_scores days st = Ok st' /\ fresh_state st'.
Proof.
  induction days as [| days IH]; intros st Hfresh Hle; simpl; [eauto |].
  destruct (day_step_fresh rnd meal_scores st Hfresh ltac:(lia)) as (st1 & Hstep & Hf1 & Hlen).
  rewrite Hstep. cbn [bind]. apply IH; [exact Hf1 | lia].
Qed.

Lemma with_scores_snd {A : Type} (f : A -> result Q) (l : list A) :
  forall scored : list (A * Q),
    with_scores f l = Ok scored -> Forall (fun c => f (fst c) = Ok (snd c)) scored.
Proof.
  unfold with_scores.
  induction l as [| x l IH]; intros scored H; simpl in H.
  - injection H as <-. constructor.
  - destruct (f x) as [s |] eqn:E; simpl in H; [| discriminate].
    destruct (traverse _ l) as [ys |]; simpl in H; [| discriminate].
    injection H as <-. constructor; [exact E | now apply IH].
Qed.

(** The generator after the filter and the scorer have succeeded. *)
Lemma generate_smart_meal_plan_unfold
      (available_meals meal_history : list Meal)
      (dietary_restrictions : option (list string)) :
  filter_meals available_meals (get_or dietary_restrictions []) <> [] ->
  exists scored : list (Meal * Q),
    map fst scored = filter_meals available_meals (get_or dietary_restrictions [])
    /\ Forall (fun c => 0 <= snd c <= 1) scored
    /\ forall (rnd : nat -> Q) (days : Z),
        generate_smart_meal_plan rnd available_meals meal_history days dietary_restrictions
        = let* st := days_loop rnd (sort_desc snd scored) (Z.to_nat days) (mkGen [] ∅ 0) in
          balance_nutrition_weekly (selected_meals st).
Proof.
  intros Hne.
  destruct (analyze_user_preferences_total meal_history) as (user_prefs & Hp & _).
  pose proof (learned_not_python_zero _ _ Hp) as Hsc.
  set (filtered := filter_meals available_meals (get_or dietary_restrictions [])) in *.
  set (recent := names_of (last_n 14 meal_history)).
  destruct (with_scores_total
              (fun meal => calculate_meal_score meal user_prefs recent) filtered)
    as [scored Hs].
  { intros meal _.
    destruct (calculate_meal_score_ok meal user_prefs recent Hsc) as (s & -> & _).
    eauto. }
  exists scored. split; [exact (with_scores_fst _ _ _ Hs) |]. split.
  - eapply List.Forall_impl; [| exact (with_scores_snd _ _ _ Hs)].
    intros c Hc. cbv beta in Hc.
    destruct (calculate_meal_score_ok (fst c) user_prefs recent Hsc) as (s & Hs' & Hrange).
    rewrite Hs' in Hc. now injection Hc as <-.
  - intros rnd days. unfold generate_smart_meal_plan. rewrite Hp. cbn [bind].
    fold filtered. fold recent.
    destruct filtered as [| m0 ms]; [congruence |].
    rewrite Hs. reflexivity.
Qed.

(** X18: when [days] is at most the number of distinct meal names in
    the filtered catalog, the generator returns a plan in which no meal
    name occurs twice. *)
Theorem generate_smart_meal_plan_no_repeats (rnd : nat -> Q)
        (available_meals meal_history : list Meal) (days : Z)
        (dietary_restrictions : option (list string)) :
  (Z.to_nat days
   <= distinct_names (filter_meals available_meals (get_or dietary_restrictions [])))%nat ->
  exists plan : list Meal,
    generate_smart_meal_plan rnd available_meals meal_history days dietary_restrictions
    = Ok plan
    /\ NoDup (names_of plan).
Proof.
  intros Hdays.
  destruct (filter_meals available_meals (get_or dietary_restrictions [])) as [| m0 ms] eqn:Ef.
  - exists []. split; [now apply generate_smart_meal_plan_empty | constructor].
  - assert (Hne : filter_meals available_meals (get_or dietary_restrictions []) <> [])
      by (rewrite Ef; discriminate).
    destruct (generate_smart_meal_plan_unfold available_meals meal_history
                                              dietary_restrictions Hne)
      as (scored & Hfst & _ & Hunf).
    rewrite Hunf. clear Hunf.
    assert (Hd : distinct_names (map fst (sort_desc snd scored))
                 = distinct_names (m0 :: ms)).
    { unfold distinct_names. f_equal. rewrite <- Ef, <- Hfst.
      apply list_to_set_perm_L. unfold names_of.
      apply Permutation_map, Permutation_map, Permutation_sym, sort_desc_perm. }
    destruct (days_loop_fresh rnd (sort_desc snd scored) (Z.to_nat days) (mkGen [] ∅ 0))
      as (st & Hrun & Hnd & _).
    { split; [constructor | reflexivity]. }
    { rewrite Hd. simpl. exact Hdays. }
    rewrite Hrun. cbn [bind].
    destruct (balance_nutrition_weekly_total (selected_meals st)) as (out & Hb & Hperm).
    exists out. split; [exact Hb |].
    assert (Hp : names_of (selected_meals st) ≡ₚ names_of out)
      by (unfold names_of; now apply Permutation_map).
    rewrite <- Hp. exact Hnd.
Qed.

Lemma generate_smart_meal_plan_no_repeats_witness :
  (Z.to_nat 4
   <= distinct_names (filter_meals [tofu; steak; oatmeal; chicken_soup; tofu]
                                   (get_or None [])))%nat
  /\ exists plan : list Meal,
      generate_smart_meal_plan (fun _ => 0.9) [tofu; steak; oatmeal; chicken_soup; tofu]
                               [water] 4 None
      = Ok plan
      /\ NoDup (names_of plan).
Proof.
  assert (H : (Z.to_nat 4
               <= distinct_names (filter_meals [tofu; steak; oatmeal; chicken_soup; tofu]
                                               (get_or None [])))%nat)
    by (vm_compute; lia).
  split; [exact H |].
  exact (generate_smart_meal_plan_no_repeats
           (fun _ => 0.9) [tofu; steak; oatmeal; chicken_soup; tofu] [water] 4 None H).
Defined.

(** ** Nutrition analyzer: the shape of the report *)

Lemma analyze_nutrition_gaps_run (meal_plan : list Meal) :
  exists st : GapState,
    analyze_nutrition_gaps meal_plan
    = Ok {| current_totals := sum_nutrition meal_plan;
            recommendations := weekly_recommendations;
            gaps := st_gaps st;
            excesses := st_excesses st;
            balance_score :=
              match balance_scores st with
              | [] => 0
              | _ => mean (balance_scores st)
              end |}
    /\ (forall n : string,
           ~ In n (map fst weekly_recommendations) ->
           st_gaps st !! n = None /\ st_excesses st !! n = None)
    /\ (forall (n : string) (r : Q),
           In (n, r) weekly_recommendations ->
           st_gaps st !! n = gap_entry (get_or (sum_nutrition meal_plan !! n) 0) r None
           /\ st_excesses st !! n
              = excess_entry (get_or (sum_nutrition meal_plan !! n) 0) r None)
    /\ Forall2 (fun item b =>
                  nutrient_balance (get_or (sum_nutrition meal_plan !! fst item) 0) (snd item)
                  = Ok b)
               weekly_recommendations (balance_scores st).
Proof.
  unfold analyze_nutrition_gaps.
  destruct (gap_loop_spec (sum_nutrition meal_plan) weekly_recommendations (mkGap ∅ ∅ []))
    as (st & Hrun & Hout & Hin & scores & Happ & Hall).
  exists st. rewrite Hrun. cbn [bind]. split; [reflexivity |]. split; [| split].
  - intros n Hn. destruct (Hout n Hn) as [Hg He].
    cbn [st_gaps st_excesses] in Hg, He. rewrite lookup_empty in Hg, He.
    split; [exact Hg | exact He].
  - intros n r Hmem. destruct (Hin weekly_recommendations_nodup n r Hmem) as [Hg He].
    cbn [st_gaps st_excesses] in Hg, He. rewrite lookup_empty in Hg, He.
    split; [exact Hg | exact He].
  - cbn [balance_scores app] in Happ. now rewrite Happ.
Qed.

Lemma weekly_recommendation_pos (n : string) (r : Q) :
  In (n, r) weekly_recommendations -> 0 < r.
Proof.
  intros H. simpl in H.
  repeat (destruct H as [H | H]; [injection H as _ <-; reflexivity |]).
  contradiction.
Qed.

Lemma weekly_recommendation_key (n : string) :
  In n (map fst weekly_recommendations) ->
  exists r : Q, In (n, r) weekly_recommendations.
Proof.
  intros H. apply in_map_iff in H as ([k r] & Hk & Hin). simpl in Hk. subst k. eauto.
Qed.

(** X19: the report never lists a nutrient both as a gap and as an
    excess, lists only the six target nutrients, and every listed
    amount is more than 20% of the nutrient's target. *)
Theorem analyze_nutrition_gaps_entries (meal_plan : list Meal) :
  exists a : Analysis,
    analyze_nutrition_gaps meal_plan = Ok a
    /\ forall (n : string) (x : Q),
        gaps a !! n = Some x \/ excesses a !! n = Some x ->
        exists target : Q,
          In (n, target) weekly_recommendations
          /\ target * 0.2 < x
          /\ (gaps a !! n = None \/ excesses a !! n = None).
Proof.
  destruct (analyze_nutrition_gaps_run meal_plan) as (st & Ha & Hout & Hin & _).
  eexists. split; [exact Ha |]. cbn [gaps excesses].
  intros n x Hx.
  destruct (in_dec string_dec n (map fst weekly_recommendations)) as [Hk | Hk].
  - destruct (weekly_recommendation_key n Hk) as [target Ht].
    exists target. split; [exact Ht |].
    pose proof (weekly_recommendation_pos n target Ht) as Hpos.
    destruct (Hin n target Ht) as [Hg He]. rewrite Hg, He in *.
    unfold gap_entry, excess_entry in *.
    destruct (Qltb _ (target * 0.8)) eqn:E1; [| destruct (Qltb (target * 1.2) _) eqn:E2].
    + apply Qltb_lt in E1. destruct Hx as [Hx | Hx]; [| discriminate Hx].
      injection Hx as <-. split; [lra | now right].
    + apply Qltb_lt in E2. destruct Hx as [Hx | Hx]; [discriminate Hx |].
      injection Hx as <-. split; [lra | now left].
    + destruct Hx as [Hx | Hx]; discriminate Hx.
  - destruct (Hout n Hk) as [Hg He]. rewrite Hg, He in Hx.
    destruct Hx as [Hx | Hx]; discriminate Hx.
Qed.

Lemma analyze_nutrition_gaps_entries_witness :
  exists a : Analysis,
    analyze_nutrition_gaps no_protein_week = Ok a
    /\ gaps a !! "protein" = Some 350
    /\ exists target : Q,
        In ("protein", target) weekly_recommendations
        /\ target * 0.2 < 350
        /\ (gaps a !! "protein" = None \/ excesses a !! "protein" = None).
Proof.
  destruct (analyze_nutrition_gaps_entries no_protein_week) as (a & Ha & Hall).
  exists a. split; [exact Ha |].
  assert (Hg : gaps a !! "protein" = Some 350).
  { assert (Hv : analyze_nutrition_gaps no_protein_week = Ok a) by exact Ha.
    vm_compute in Hv. injection Hv as <-. vm_compute. reflexivity. }
  split; [exact Hg | exact (Hall "protein" 350 (or_introl Hg))].
Defined.

Lemma sum_ge (lo : Q) (l : list Q) :
  (forall x : Q, In x l -> lo <= x) -> of_nat (List.length l) * lo <= sum l.
Proof.
  induction l as [| x l IH]; intros H.
  - change (of_nat (List.length [])) with 0. change (sum []) with 0. lra.
  - rewrite sum_cons.
    assert (Hn : of_nat (List.length (x :: l)) == 1 + of_nat (List.length l)).
    { unfold of_nat. simpl List.length. rewrite Nat2Z.inj_succ, <- Z.add_1_l.
      rewrite inject_Z_plus. reflexivity. }
    rewrite Hn. pose proof (H x (or_introl eq_refl)).
    assert (of_nat (List.length l) * lo <= sum l) by (apply IH; intros y Hy; apply H; now right).
    lra.
Qed.

Lemma sum_le (hi : Q) (l : list Q) :
  (forall x : Q, In x l -> x <= hi) -> sum l <= of_nat (List.length l) * hi.
Proof.
  induction l as [| x l IH]; intros H.
  - change (of_nat (List.length [])) with 0. change (sum []) with 0. lra.
  - rewrite sum_cons.
    assert (Hn : of_nat (List.length (x :: l)) == 1 + of_nat (List.length l)).
    { unfold of_nat. simpl List.length. rewrite Nat2Z.inj_succ, <- Z.add_1_l.
      rewrite inject_Z_plus. reflexivity. }
    rewrite Hn. pose proof (H x (or_introl eq_refl)).
    assert (sum l <= of_nat (List.length l) * hi) by (apply IH; intros y Hy; apply H; now right).
    lra.
Qed.

Lemma mean_ge (lo : Q) (l : list Q) :
  l <> [] -> (forall x : Q, In x l -> lo <= x) -> lo <= mean l.
Proof.
  intros Hne H. unfold mean.
  assert (Hlen : 0 < of_nat (List.length l)).
  { apply of_nat_pos. destruct l; [congruence | simpl; lia]. }
  pose proof (sum_ge lo l H). apply Qle_shift_div_l; [exact Hlen | lra].
Qed.

Lemma mean_le (hi : Q) (l : list Q) :
  l <> [] -> (forall x : Q, In x l -> x <= hi) -> mean l <= hi.
Proof.
  intros Hne H. unfold mean.
  assert (Hlen : 0 < of_nat (List.length l)).
  { apply of_nat_pos. destruct l; [congruence | simpl; lia]. }
  pose proof (sum_le hi l H). apply Qle_shift_div_r; [exact Hlen | lra].
Qed.

Lemma plan_total_nonneg (nutrient : string) (meal_plan : list Meal) :
  (forall (meal : Meal) (n : string) (v : Q),
      In meal meal_plan -> nutrition_of meal !! n = Some v -> 0 <= v) ->
  0 <= plan_total nutrient meal_plan.
Proof.
  intros H. unfold plan_total.
  pose proof (sum_ge 0 (map (fun meal => get_or (nutrition_of meal !! nutrient) 0) meal_plan))
    as Hs.
  rewrite Qmult_0_r in Hs. apply Hs. intros x Hx.
  apply in_map_iff in Hx as (meal & <- & Hm).
  destruct (nutrition_of meal !! nutrient) as [v |] eqn:E; simpl; [| lra].
  exact (H meal nutrient v Hm E).
Qed.

Lemma nutrient_balance_range (current recommended b : Q) :
  0 < recommended ->
  nutrient_balance current recommended = Ok b ->
  b <= 1 /\ (0 <= current -> 0 <= b).
Proof.
  intros Hpos H. unfold nutrient_balance in H.
  apply Qltb_lt in Hpos as Hb. rewrite Hb in H.
  rewrite py_div_ok in H by lra. cbn [bind] in H.
  assert (Hr : 0 <= current -> 0 <= current / recommended)
    by (intros Hc; apply Qle_shift_div_l; [exact Hpos | lra]).
  revert H Hr. generalize (current / recommended). intros q H Hr.
  assert (Hbv : b = if Qle_bool q 2 then 1 - Qabs (1 - q) else 0) by congruence.
  rewrite Hbv. clear H Hbv.
  destruct (Qle_bool q 2) eqn:E.
  - apply Qle_bool_iff in E.
    split; [apply Qabs_case; intros; lra |].
    intros Hc. specialize (Hr Hc). apply Qabs_case; intros; lra.
  - split; [lra | intros _; lra].
Qed.

Lemma nutrient_balance_exact (current recommended b : Q) :
  0 < recommended ->
  current == recommended ->
  nutrient_balance current recommended = Ok b ->
  b == 1.
Proof.
  intros Hpos Heq H. unfold nutrient_balance in H.
  apply Qltb_lt in Hpos as Hb. rewrite Hb in H.
  rewrite py_div_ok in H by lra. cbn [bind] in H.
  assert (Hr : current / recommended == 1) by (rewrite Heq; field; lra).
  revert H Hr. generalize (current / recommended). intros q H Hq.
  assert (Hbv : b = if Qle_bool q 2 then 1 - Qabs (1 - q) else 0) by congruence.
  rewrite Hbv. clear H Hbv.
  assert (E : Qle_bool q 2 = true) by (apply Qle_bool_iff; lra).
  rewrite E. apply Qabs_case; intros; lra.
Qed.

Lemma Forall2_In_r {A B : Type} (P : A -> B -> Prop) (l1 : list A) (l2 : list B) (b : B) :
  Forall2 P l1 l2 -> In b l2 -> exists a : A, In a l1 /\ P a b.
Proof.
  induction 1 as [| x y l1 l2 Hxy _ IH]; intros Hin; [contradiction |].
  destruct Hin as [<- | Hin].
  - exists x. split; [now left | exact Hxy].
  - destruct (IH Hin) as (a & Ha & HP). exists a. split; [now right | exact HP].
Qed.

Lemma balance_scores_nonempty (P : string * Q -> Q -> Prop) (scores : list Q) :
  Forall2 P weekly_recommendations scores -> scores <> [].
Proof. intros H ->. inversion H. Qed.

(** X20: the reported balance score is at most 1, and it is at least 0
    when no meal of the plan has a negative nutrition amount. *)
Theorem analyze_nutrition_gaps_balance_range (meal_plan : list Meal) :
  exists a : Analysis,
    analyze_nutrition_gaps meal_plan = Ok a
    /\ balance_score a <= 1
    /\ ((forall (meal : Meal) (n : string) (v : Q),
            In meal meal_plan -> nutrition_of meal !! n = Some v -> 0 <= v) ->
        0 <= balance_score a).
Proof.
  destruct (analyze_nutrition_gaps_run meal_plan) as (st & Ha & _ & _ & Hall).
  eexists. split; [exact Ha |]. cbn [balance_score].
  pose proof (balance_scores_nonempty _ _ Hall) as Hne.
  destruct (balance_scores st) as [| b0 bs] eqn:Eb; [congruence |].
  rewrite <- Eb in *. clear Eb. split.
  - apply mean_le; [exact Hne |]. intros b Hb.
    destruct (Forall2_In_r _ _ _ b Hall Hb) as ([n r] & Hin & Hbal).
    exact (proj1 (nutrient_balance_range _ _ _ (weekly_recommendation_pos n r Hin) Hbal)).
  - intros Hnonneg. apply mean_ge; [exact Hne |]. intros b Hb.
    destruct (Forall2_In_r _ _ _ b Hall Hb) as ([n r] & Hin & Hbal).
    apply (proj2 (nutrient_balance_range _ _ _ (weekly_recommendation_pos n r Hin) Hbal)).
    cbn [fst]. rewrite sum_nutrition_total. now apply plan_total_nonneg.
Qed.

Lemma analyze_nutrition_gaps_balance_range_witness :
  (forall (meal : Meal) (n : string) (v : Q),
      In meal [steak; oatmeal] -> nutrition_of meal !! n = Some v -> 0 <= v)
  /\ exists a : Analysis,
      analyze_nutrition_gaps [steak; oatmeal] = Ok a
      /\ 0 <= balance_score a <= 1.
Proof.
  assert (H : forall (meal : Meal) (n : string) (v : Q),
             In meal [steak; oatmeal] -> nutrition_of meal !! n = Some v -> 0 <= v).
  { intros meal n v Hin Hv. simpl in Hin.
    destruct Hin as [<- | [<- | []]]; unfold nutrition_of in Hv; cbn [nutrition steak oatmeal get_or] in Hv;
      apply elem_of_list_to_map_2, list_elem_of_In in Hv; simpl in Hv;
      repeat (destruct Hv as [Hv | Hv]; [injection Hv as _ <-; discriminate |]);
      contradiction. }
  split; [exact H |].
  destruct (analyze_nutrition_gaps_balance_range [steak; oatmeal]) as (a & Ha & Hle & Hge).
  exists a. split; [exact Ha | split; [exact (Hge H) | exact Hle]].
Defined.

(** X21: a plan whose totals equal the six weekly targets is reported
    with no gap, no excess and a balance score of 1. *)
Theorem analyze_nutrition_gaps_on_target (meal_plan : list Meal) :
  (forall (nutrient : string) (target : Q),
      In (nutrient, target) weekly_recommendations ->
      plan_total nutrient meal_plan == target) ->
  exists a : Analysis,
    analyze_nutrition_gaps meal_plan = Ok a
    /\ gaps a = ∅
    /\ excesses a = ∅
    /\ balance_score a == 1.
Proof.
  intros Hexact.
  destruct (analyze_nutrition_gaps_run meal_plan) as (st & Ha & Hout & Hin & Hall).
  eexists. split; [exact Ha |]. cbn [gaps excesses balance_score].
  assert (Hnone : forall n : string, st_gaps st !! n = None /\ st_excesses st !! n = None).
  { intros n.
    destruct (in_dec string_dec n (map fst weekly_recommendations)) as [Hk | Hk];
      [| now apply Hout].
    destruct (weekly_recommendation_key n Hk) as [target Ht].
    pose proof (weekly_recommendation_pos n target Ht) as Hpos.
    pose proof (Hexact n target Ht) as He.
    pose proof (sum_nutrition_total n meal_plan) as Htot.
    destruct (Hin n target Ht) as [Hg Hx]. rewrite Hg, Hx.
    unfold gap_entry, excess_entry.
    destruct (Qltb _ (target * 0.8)) eqn:E1; [apply Qltb_lt in E1; lra |].
    destruct (Qltb (target * 1.2) _) eqn:E2; [apply Qltb_lt in E2; lra |].
    split; reflexivity. }
  split; [| split].
  - apply map_eq. intros n. rewrite lookup_empty. apply Hnone.
  - apply map_eq. intros n. rewrite lookup_empty. apply Hnone.
  - pose proof (balance_scores_nonempty _ _ Hall) as Hne.
    destruct (balance_scores st) as [| b0 bs] eqn:Eb; [congruence |].
    rewrite <- Eb in *. clear Eb.
    assert (Hone : forall b : Q, In b (balance_scores st) -> b == 1).
    { intros b Hb.
      destruct (Forall2_In_r _ _ _ b Hall Hb) as ([n r] & Hmem & Hbal). cbn [fst snd] in Hbal.
      apply (nutrient_balance_exact (get_or (sum_nutrition meal_plan !! n) 0) r b
                                    (weekly_recommendation_pos n r Hmem)); [| exact Hbal].
      rewrite sum_nutrition_total. now apply Hexact. }
    apply Qle_antisym.
    + apply mean_le; [exact Hne |]. intros b Hb. rewrite (Hone b Hb). lra.
    + apply mean_ge; [exact Hne |]. intros b Hb. rewrite (Hone b Hb). lra.
Qed.

Lemma analyze_nutrition_gaps_on_target_witness :
  (forall (nutrient : string) (target : Q),
      In (nutrient, target) weekly_recommendations ->
      plan_total nutrient [on_target; tofu] == target)
  /\ exists a : Analysis,
      analyze_nutrition_gaps [on_target; tofu] = Ok a
      /\ gaps a = ∅ /\ excesses a = ∅ /\ balance_score a == 1.
Proof.
  assert (H : forall (nutrient : string) (target : Q),
             In (nutrient, target) weekly_recommendations ->
             plan_total nutrient [on_target; tofu] == target).
  { intros nutrient target Hin. simpl in Hin.
    repeat (destruct Hin as [Hin | Hin];
            [injection Hin as <- <-; vm_compute; reflexivity |]).
    contradiction. }
  split; [exact H | exact (analyze_nutrition_gaps_on_target _ H)].
Defined.

Lemma fold_add_nutrition_none (nutrient : string) (meal_plan : list Meal) :
  forall totals : gmap string Q,
    fold_left add_nutrition meal_plan totals !! nutrient = None <->
    totals !! nutrient = None
    /\ forall meal : Meal, In meal meal_plan -> nutrition_of meal !! nutrient = None.
Proof.
  induction meal_plan as [| meal rest IH]; intros totals; simpl.
  - split; [intros H; split; [exact H | contradiction] | tauto].
  - rewrite IH, add_nutrition_lookup.
    destruct (nutrition_of meal !! nutrient) as [v |] eqn:E.
    + split; [intros [H _]; discriminate H |].
      intros [_ H]. specialize (H meal (or_introl eq_refl)). congruence.
    + split.
      * intros [Ht Hr]. split; [exact Ht |]. intros m [<- | Hm]; auto.
      * intros [Ht Hr]. split; [exact Ht |]. intros m Hm. apply Hr. now right.
Qed.

(** X22: the totals of the report have an entry exactly for the
    nutrients that occur in some meal of the plan, the six targets or
    not, and each entry is the sum of that nutrient over the plan. *)
Theorem analyze_nutrition_gaps_totals (meal_plan : list Meal) :
  exists a : Analysis,
    analyze_nutrition_gaps meal_plan = Ok a
    /\ forall n : string,
        (current_totals a !! n = None <->
         forall meal : Meal, In meal meal_plan -> nutrition_of meal !! n = None)
        /\ get_or (current_totals a !! n) 0 == plan_total n meal_plan.
Proof.
  destruct (analyze_nutrition_gaps_run meal_plan) as (st & Ha & _).
  eexists. split; [exact Ha |]. cbn [current_totals]. intros n. split.
  - unfold sum_nutrition. rewrite fold_add_nutrition_none, lookup_empty. tauto.
  - apply sum_nutrition_total.
Qed.

Lemma analyze_nutrition_gaps_totals_witness :
  (forall meal : Meal, In meal [steak; on_target] -> nutrition_of meal !! "iron" = None)
  /\ exists a : Analysis,
      analyze_nutrition_gaps [steak; on_target] = Ok a
      /\ current_totals a !! "iron" = None
      /\ get_or (current_totals a !! "sodium") 0 == plan_total "sodium" [steak; on_target].
Proof.
  assert (H : forall meal : Meal,
             In meal [steak; on_target] -> nutrition_of meal !! "iron" = None).
  { intros meal Hin. simpl in Hin.
    destruct Hin as [<- | [<- | []]]; vm_compute; reflexivity. }
  split; [exact H |].
  destruct (analyze_nutrition_gaps_totals [steak; on_target]) as (a & Ha & Hall).
  exists a. split; [exact Ha |].
  split; [exact (proj2 (proj1 (Hall "iron")) H) | exact (proj2 (Hall "sodium"))].
Defined.

(** ** Plan generator: reachable plans *)

Lemma walk_proper (weights : list Q) :
  forall (i : nat) (c u u' : Q), u == u' -> walk weights i c u = walk weights i c u'.
Proof.
  induction weights as [| w ws IH]; intros i c u u' Hu; [reflexivity |].
  simpl.
  assert (E : Qle_bool u (c + w) = Qle_bool u' (c + w)).
  { destruct (Qle_bool u (c + w)) eqn:E1, (Qle_bool u' (c + w)) eqn:E2; try reflexivity.
    - apply Qle_bool_iff in E1.
      assert (H : Qle_bool u' (c + w) = true) by (apply Qle_bool_iff; lra). congruence.
    - apply Qle_bool_iff in E2.
      assert (H : Qle_bool u (c + w) = true) by (apply Qle_bool_iff; lra). congruence. }
  rewrite E. destruct (Qle_bool u' (c + w)); [reflexivity | now apply IH].
Qed.

Lemma weighted_pick_proper {T : Type} (items : list T) (weights : list Q) (u u' : Q) :
  u == u' -> weighted_pick items weights u = weighted_pick items weights u'.
Proof. intros H. unfold weighted_pick. now rewrite (walk_proper weights 0 0 u u' H). Qed.

(** Every candidate is the choice for some value of [random.random()]
    in [0, 1]. *)
Lemma weighted_random_choice_reachable {T : Type} (candidates : list (T * Q)) (c : T * Q) :
  Forall (fun c => 0 <= snd c) candidates ->
  In c candidates ->
  exists r : Q,
    0 <= r <= 1
    /\ _weighted_random_choice r candidates (map (fun c => snd c + 0.1) candidates)
       = Ok (Some c).
Proof.
  intros Hnn Hin.
  apply In_nth_error in Hin as [j Hj].
  set (weights := map (fun c => snd c + 0.1) candidates).
  assert (Hpos : Forall (fun w => 0 < w) weights).
  { unfold weights. apply List.Forall_forall. intros w Hw.
    apply in_map_iff in Hw as (c' & <- & Hc').
    rewrite List.Forall_forall in Hnn. specialize (Hnn c' Hc'). lra. }
  assert (Hw : nth_error weights j = Some (snd c + 0.1))
    by (unfold weights; rewrite nth_error_map, Hj; reflexivity).
  assert (Hjlen : (j < List.length weights)%nat) by (apply nth_error_Some; congruence).
  assert (Hwpos : 0 < snd c + 0.1).
  { rewrite List.Forall_forall in Hnn. specialize (Hnn c (nth_error_In _ _ Hj)). lra. }
  pose proof (cumulative_step _ _ _ Hw) as Hstep.
  pose proof (cumulative_le_sum weights (S j) Hpos) as Hsum.
  assert (H0 : 0 <= cumulative weights j).
  { change 0 with (cumulative weights 0) at 1. apply cumulative_mono; [assumption | lia]. }
  assert (Htot : 0 < sum weights) by (rewrite Hstep in Hsum; lra).
  exists (cumulative weights (S j) / sum weights). split; [split |].
  - apply Qle_shift_div_l; [exact Htot | rewrite Hstep; lra].
  - apply Qle_shift_div_r; [exact Htot | lra].
  - unfold _weighted_random_choice. fold weights.
    rewrite (weighted_pick_proper candidates weights _ (cumulative weights (S j))).
    + apply (weighted_pick_interval candidates weights j); try assumption.
      rewrite Hstep. lra.
    + unfold uniform. field. lra.
Qed.

Lemma filter_all {A : Type} (f : A -> bool) (l : list A) :
  (forall x : A, f x = true) -> List.filter f l = l.
Proof.
  intros H. induction l as [| x l IH]; [reflexivity |]. simpl. now rewrite H, IH.
Qed.

(** X23: every catalog meal that passes the filter can be the plan of a
    one-day request: some value of the random source in [0, 1] selects
    it, however low its score. *)
Theorem generate_smart_meal_plan_reachable
        (available_meals meal_history : list Meal)
        (dietary_restrictions : option (list string)) (meal : Meal) :
  scorable meal_history ->
  In meal (filter_meals available_meals (get_or dietary_restrictions [])) ->
  exists rnd : nat -> Q,
    (forall k : nat, 0 <= rnd k <= 1)
    /\ generate_smart_meal_plan rnd available_meals meal_history 1 dietary_restrictions
       = Ok [meal].
Proof.
  intros Hsc Hin.
  assert (Hne : filter_meals available_meals (get_or dietary_restrictions []) <> [])
    by (intros E; rewrite E in Hin; contradiction).
  destruct (generate_smart_meal_plan_unfold available_meals meal_history
                                            dietary_restrictions Hne)
    as (scored & Hfst & Hrange & Hunf).
  rewrite <- Hfst in Hin. apply in_map_iff in Hin as (c & Hc & Hcin).
  assert (Hcs : In c (sort_desc snd scored))
    by (eapply Permutation_in; [apply sort_desc_perm | exact Hcin]).
  assert (Hnn : Forall (fun c => 0 <= snd c) (sort_desc snd scored)).
  { apply (Permutation_Forall (sort_desc_perm snd scored)).
    eapply List.Forall_impl; [| exact Hrange]. intros c' [H _]. exact H. }
  destruct (weighted_random_choice_reachable _ c Hnn Hcs) as (r & Hr & Hpick).
  exists (fun _ => r). split; [intros _; exact Hr |].
  rewrite Hunf. change (Z.to_nat 1) with 1%nat.
  cbn [days_loop]. unfold day_step. cbn [used_meals selected_meals draws].
  rewrite filter_all by (intros x; reflexivity).
  destruct (sort_desc snd scored) as [| c0 cs] eqn:Es; [contradiction |].
  rewrite Hpick. cbn [bind app selected_meals]. rewrite Hc. reflexivity.
Qed.

Lemma generate_smart_meal_plan_reachable_witness :
  scorable [steak]
  /\ In chicken_soup (filter_meals [tofu; chicken_soup; steak] (get_or (Some ["gluten-free"]) []))
  /\ exists rnd : nat -> Q,
      (forall k : nat, 0 <= rnd k <= 1)
      /\ generate_smart_meal_plan rnd [tofu; chicken_soup; steak] [steak] 1
                                  (Some ["gluten-free"])
         = Ok [chicken_soup].
Proof.
  assert (H1 : scorable [steak]) by (right; vm_compute; discriminate).
  assert (H2 : In chicken_soup
                  (filter_meals [tofu; chicken_soup; steak] (get_or (Some ["gluten-free"]) [])))
    by (vm_compute; auto).
  split; [exact H1 | split; [exact H2 |]].
  exact (generate_smart_meal_plan_reachable _ _ _ _ H1 H2).
Defined.

Lemma all_equal_repeat {A : Type} (x : A) (l : list A) :
  Forall (fun y => In y [x]) l -> l = repeat x (List.length l).
Proof.
  induction 1 as [| y l Hy _ IH]; [reflexivity |].
  simpl. destruct Hy as [<- | []]. now rewrite <- IH.
Qed.

(** X24: when exactly one catalog meal passes the filter, the plan is
    that meal on every day, whatever the random source: the used set is
    exhausted and reset on each day after the first. *)
Theorem generate_smart_meal_plan_single (rnd : nat -> Q)
        (available_meals meal_history : list Meal) (days : Z)
        (dietary_restrictions : option (list string)) (meal : Meal) :
  filter_meals available_meals (get_or dietary_restrictions []) = [meal] ->
  scorable meal_history ->
  generate_smart_meal_plan rnd available_meals meal_history days dietary_restrictions
  = Ok (repeat meal (Z.to_nat days)).
Proof.
  intros Hf Hsc.
  destruct (generate_smart_meal_plan_run rnd available_meals meal_history days
                                         dietary_restrictions)
    as (plan & Hrun & Hlen & Hall); [rewrite Hf; discriminate |].
  rewrite Hrun. f_equal. rewrite Hf in Hall. rewrite <- Hlen.
  now apply all_equal_repeat.
Qed.

Lemma generate_smart_meal_plan_single_witness :
  filter_meals [chicken_soup; steak; lentil_soup] (get_or (Some ["Vegan"]) []) = [lentil_soup]
  /\ scorable [steak; oatmeal]
  /\ generate_smart_meal_plan (fun k => of_nat k / 10) [chicken_soup; steak; lentil_soup]
                              [steak; oatmeal] 9 (Some ["Vegan"])
     = Ok (repeat lentil_soup (Z.to_nat 9)).
Proof.
  assert (H1 : filter_meals [chicken_soup; steak; lentil_soup] (get_or (Some ["Vegan"]) [])
               = [lentil_soup]) by (vm_compute; reflexivity).
  assert (H2 : scorable [steak; oatmeal]) by (right; vm_compute; discriminate).
  split; [exact H1 | split; [exact H2 |]].
  exact (generate_smart_meal_plan_single _ _ _ 9 _ _ H1 H2).
Defined.

(** ** Totality *)

(** X17: the four operations raise nothing.  For every history the
    learner returns a profile; for every catalog, history, day count and
    restriction list the generator returns a plan, also when the learned
    preferred prep time is zero; the balancer returns a plan for every
    list of meals; and the analyzer returns a report for every plan. *)
Theorem core_operations_total (rnd : nat -> Q)
        (available_meals meal_history meal_plan : list Meal) (days : Z)
        (dietary_restrictions : option (list string)) :
  (exists user_prefs : Prefs, analyze_user_preferences meal_history = Ok user_prefs)
  /\ (exists plan : list Meal,
         generate_smart_meal_plan rnd available_meals meal_history days dietary_restrictions
         = Ok plan)
  /\ (exists balanced : list Meal, balance_nutrition_weekly meal_plan = Ok balanced)
  /\ (exists analysis : Analysis, analyze_nutrition_gaps meal_plan = Ok analysis).
Proof.
  split; [| split; [| split]].
  - destruct (analyze_user_preferences_total meal_history) as (user_prefs & Hp & _). eauto.
  - destruct (filter_meals available_meals (get_or dietary_restrictions []))
      as [| m0 ms] eqn:Ef.
    + exists []. now apply generate_smart_meal_plan_empty.
    + destruct (generate_smart_meal_plan_run rnd available_meals meal_history days
                                             dietary_restrictions)
        as (plan & Hrun & _); [rewrite Ef; discriminate | eauto].
  - destruct (balance_nutrition_weekly_total meal_plan) as (out & Hb & _). eauto.
  - destruct (analyze_nutrition_gaps_run meal_plan) as (st & Ha & _). eauto.
Qed.
